(** * Sales forecasting engine: risk scoring, safety-capped forecasts,
      narrative selection and consistency validation

    A shallow embedding of the analytics core of the repository
    ([backend/risk_analysis.py], [backend/forecasting.py],
    [backend/consistency_validator.py], [backend/insights_engine.py],
    [backend/preprocessing.py]) and the properties its specification states.

    Numbers.  A Python float is modelled by a real number: arithmetic is
    exact.  The special values that the code itself names are modelled
    explicitly: NaN as a missing entry of a series ([None], removed by
    [dropna]) and [float('inf')], volatility's sentinel, by the constructor
    [Inf] of [pyfloat].  Where a property turns on rounding (a volatility
    that is exactly 0.0), the formula is stated once for any arithmetic and
    evaluated in IEEE 754 binary64 too (module [Floating]). *)

From Stdlib Require Import String Reals Lra Lia ZArith Bool List.
From Stdlib Require Import Permutation.
From Stdlib Require Floats Uint63.
Import ListNotations.
Open Scope R_scope.

(* ================================================================= *)
(** ** Python and pandas primitives *)

Module Py.

(** [min(a, b)] of two floats: the first argument unless the second is
    strictly smaller. *)
Definition min (a b : R) : R := if Rlt_dec b a then b else a.

(** [max(a, b)]: the first argument unless the second is strictly larger. *)
Definition max (a b : R) : R := if Rlt_dec a b then b else a.

(** [sum(l)], from 0 and left to right. *)
Definition sum (l : list R) : R := fold_left Rplus l 0.

(** A float that may be [float('inf')]. *)
Inductive pyfloat : Type :=
| Finite (r : R)
| Inf.

(** [min(v, c)] where [v] may be infinite and [c] is finite. *)
Definition min_cap (v : pyfloat) (c : R) : R :=
  match v with
  | Finite x => min x c
  | Inf => c
  end.

(** [v > c] where [v] may be infinite. *)
Definition gt (v : pyfloat) (c : R) : bool :=
  match v with
  | Finite x => if Rlt_dec c x then true else false
  | Inf => true
  end.

(** A float that may be NaN: [None] is NaN.  Arithmetic propagates NaN and
    every comparison with NaN is false, so [min] and [max] keep their
    first argument when either one is NaN. *)
Definition float := option R.

Definition NaN : float := None.

Definition lift2 (op : R -> R -> R) (a b : float) : float :=
  match a, b with
  | Some x, Some y => Some (op x y)
  | _, _ => None
  end.

Definition fadd := lift2 Rplus.
Definition fsub := lift2 Rminus.
Definition fmul := lift2 Rmult.
Definition fdiv := lift2 Rdiv.

(** [a < b] *)
Definition flt (a b : float) : bool :=
  match a, b with
  | Some x, Some y => if Rlt_dec x y then true else false
  | _, _ => false
  end.

Definition fmin (a b : float) : float := if flt b a then b else a.
Definition fmax (a b : float) : float := if flt a b then b else a.

(** [np.isnan(x)] *)
Definition isnan (a : float) : bool :=
  match a with
  | Some _ => false
  | None => true
  end.

(** Exceptions the modelled code raises. *)
Inductive exn : Type :=
| ValueError (msg : string).

Inductive result (A : Type) : Type :=
| Ok (a : A)
| Raise (e : exn).
Arguments Ok {A} a.
Arguments Raise {A} e.

End Py.

Module Pandas.

(** A [pd.Series] of floats, index left out: [None] is a missing entry
    (NaN). *)
Definition series := list Py.float.

(** [s.dropna()] *)
Fixpoint dropna (s : series) : list R :=
  match s with
  | [] => []
  | Some x :: t => x :: dropna t
  | None :: t => dropna t
  end.

(** [l.iloc[-n:]] for [n >= 0]: the last [n] entries, all of them when
    fewer; [-0] is [0], so [n = 0] keeps the whole list. *)
Definition iloc_last_n {A : Type} (n : nat) (l : list A) : list A :=
  match n with
  | O => l
  | S _ => skipn (length l - n) l
  end.

(** [l.iloc[-1]] of a non-empty list; [d] stands for the empty case, which
    every caller excludes first. *)
Definition iloc_last {A : Type} (l : list A) (d : A) : A := last l d.

(** [l.mean()], in exact arithmetic. *)
Definition mean (l : list R) : R := Py.sum l / INR (length l).

(** [l.std(ddof=0)]: population standard deviation, in exact arithmetic. *)
Definition std0 (l : list R) : R :=
  let m := mean l in
  sqrt (Py.sum (map (fun x => (x - m) * (x - m)) l) / INR (length l)).

(** [l.max()] of a non-empty list. *)
Definition maximum (l : list R) : R :=
  match l with
  | [] => 0
  | x :: t => fold_left Py.max t x
  end.

End Pandas.

(* ================================================================= *)
(** ** backend/risk_analysis.py *)

Module RiskAnalysis.
Import Py Pandas.

(** [volatility_percent(series, window=12)] *)
Definition volatility_percent (series : series) (window : nat) : pyfloat :=
  let s := dropna series in
  match s with
  | [] => Finite 0
  | _ =>
      let recent := iloc_last_n window s in
      let mean := mean recent in
      if Req_dec_T mean 0 then Inf
      else Finite (std0 recent / mean * 100)
  end.

(** [peak_to_current_drawdown(series)] *)
Definition peak_to_current_drawdown (series : series) : R :=
  let s := dropna series in
  match s with
  | [] => 0
  | _ =>
      let peak := maximum s in
      let current := iloc_last s 0 in
      if Req_dec_T peak 0 then 0
      else (peak - current) / peak * 100
  end.

(** [np.arange(n)] as floats. *)
Definition arange (n : nat) : list R := map INR (seq 0 n).

(** The slope [m] of [np.linalg.lstsq(np.vstack([x, ones]).T, y)]: the
    least-squares line through the points [(x_i, y_i)].  With a single
    point the system is rank deficient and the minimum-norm solution has
    slope 0. *)
Definition lstsq_slope (x y : list R) : R :=
  let n := INR (length x) in
  let sx := Py.sum x in
  let sy := Py.sum y in
  let sxy := Py.sum (map (fun p => fst p * snd p) (combine x y)) in
  let sxx := Py.sum (map (fun a => a * a) x) in
  let den := n * sxx - sx * sx in
  if Req_dec_T den 0 then 0 else (n * sxy - sx * sy) / den.

(** [momentum_score(series, months=3)] *)
Definition momentum_score (series : series) (months : nat) : R :=
  let s := dropna series in
  if (length s <? 2)%nat then 0
  else
    let window := Nat.min months (length s - 1) in
    let recent := iloc_last_n (window + 1) s in
    let x := arange (length recent) in
    let m := lstsq_slope x recent in
    let mean := mean recent in
    if Req_dec_T mean 0 then 0
    else m / mean * 100.

(** [composite_risk_score(series)] *)
Definition composite_risk_score (series : series) : R :=
  let vol := volatility_percent series 12 in
  let draw := peak_to_current_drawdown series in
  let mom := momentum_score series 6 in
  let trend_pct := - Py.min mom 0 in
  let vol_norm := min_cap vol 100 in
  let draw_norm := Py.min draw 100 in
  let trend_norm := Py.min (Rabs trend_pct) 100 in
  let score := 0.4 * vol_norm + 0.3 * trend_norm + 0.3 * draw_norm in
  Py.max 0 (Py.min 100 score).

(** [classify_score(score)] *)
Definition classify_score (score : R) : string :=
  if Rlt_dec score 30 then "Low"%string
  else if Rlt_dec score 60 then "Medium"%string
  else "High"%string.

End RiskAnalysis.

(* ================================================================= *)
(** ** The volatility in floating-point arithmetic *)

Module Floating.
Import PrimFloat.

(** The float arithmetic that [volatility_percent] uses, on a carrier [F]:
    the constants 0.0 and 100.0, the float of a length, the sum of an
    array, the operations of the formula, the square root and the test
    [==].  The sum is an operation of its own: the order in which the
    values are added is the library's. *)
Class Arith (F : Type) : Type := {
  zero : F;
  hundred : F;
  of_len : nat -> F;
  op_sum : list F -> F;
  op_sub : F -> F -> F;
  op_mul : F -> F -> F;
  op_div : F -> F -> F;
  op_sqrt : F -> F;
  op_eq : F -> F -> bool
}.

(** Exact arithmetic: the real numbers of the rest of this development. *)
#[global] Instance exact : Arith R := {|
  zero := 0%R;
  hundred := 100%R;
  of_len := INR;
  op_sum := Py.sum;
  op_sub := Rminus;
  op_mul := Rmult;
  op_div := Rdiv;
  op_sqrt := R_sqrt.sqrt;
  op_eq := fun x y => if Req_dec_T x y then true else false
|}.


(** A float that is a number or the sentinel [float('inf')]. *)
Inductive value (F : Type) : Type :=
| Number (x : F)
| Infinity.
Arguments Number {F} x.
Arguments Infinity {F}.

Section Signals.

Context {F : Type} {A : Arith F}.

(** [s.dropna()] *)
Fixpoint dropna (s : list (option F)) : list F :=
  match s with
  | [] => []
  | Some x :: t => x :: dropna t
  | None :: t => dropna t
  end.

(** [l.mean()] *)
Definition mean (l : list F) : F := op_div (op_sum l) (of_len (length l)).

(** [l.std(ddof=0)] *)
Definition std0 (l : list F) : F :=
  let m := mean l in
  op_sqrt (op_div (op_sum (map (fun x => op_mul (op_sub x m) (op_sub x m)) l))
                  (of_len (length l))).

(** [volatility_percent(series, window=12)] *)
Definition volatility_percent (series : list (option F)) (window : nat)
    : value F :=
  let s := dropna series in
  match s with
  | [] => Number zero
  | _ =>
      let recent := Pandas.iloc_last_n window s in
      let mean := mean recent in
      if op_eq mean zero then Infinity
      else Number (op_mul (op_div (std0 recent) mean) hundred)
  end.


End Signals.

(** A number of the exact arithmetic as a float of the other modules. *)
Definition to_pyfloat (v : value R) : Py.pyfloat :=
  match v with
  | Number x => Py.Finite x
  | Infinity => Py.Inf
  end.









End Floating.

(* ================================================================= *)
(** ** backend/forecasting.py *)

Module Forecasting.
Import Py Pandas.

(** What [statsmodels]' [ExponentialSmoothing(...).fit(optimized=True)]
    gives back: the fitted values and the forecast for a number of
    steps.  The fit is the library's; the forecaster is modelled for every
    such fit.  A fit or a forecast that raises (the library rejects a
    forecast of 0 steps, for one) is outside the model: what is proved of a
    fitted forecast holds when the library returns. *)
Record HoltWintersResults : Type := {
  fittedvalues : list float;
  forecast : nat -> list float
}.

(** [ExponentialSmoothing(s, trend, seasonal, seasonal_periods,
    initialization_method).fit(optimized=True)] *)
Definition ExponentialSmoothing : Type :=
  series -> string -> option string -> option nat -> string ->
  HoltWintersResults.

(** The dictionary that [ets_recursive_forecast] returns. *)
Record ForecastResult : Type := {
  predictions : list float;
  lower : list float;
  upper : list float;
  fitted : list float
}.

(** [np.std(res, ddof=0)], NaN as soon as one residual is. *)
Definition np_std0 (res : list float) : float :=
  if forallb (fun x => negb (isnan x)) res
  then Some (std0 (dropna res))
  else NaN.

(** [_residual_std(fitted_values, actual)] *)
Definition _residual_std (fitted_values actual : list float) : float :=
  let res := map (fun p => fsub (fst p) (snd p)) (combine actual fitted_values) in
  np_std0 res.

(** [s.pct_change()]: NaN first, then [cur / prev - 1].  A zero previous
    value makes numpy produce an infinity or NaN, which [dropna] keeps and
    which makes the recent percent change infinite; that case lies outside
    this model, which divides as the reals do.  What is proved with
    [recent_pct_of] is about histories whose last three values are not
    zero, or holds for every recent percent change. *)
Fixpoint pct_change_from (prev : float) (l : list float) : list float :=
  match l with
  | [] => []
  | cur :: t => fsub (fdiv cur prev) (Some 1) :: pct_change_from cur t
  end.

Definition pct_change (l : list float) : list float :=
  match l with
  | [] => []
  | x :: t => NaN :: pct_change_from x t
  end.

(** The recent average percent change of lines 71 to 76. *)
Definition recent_pct_of (s : series) : R :=
  if (3 <=? length s)%nat then
    let recent := iloc_last_n 3 s in
    let pct := dropna (pct_change recent) in
    match pct with
    | [] => 0
    | _ => mean pct
    end
  else 0.

Definition floor : R := 0.01.

(** One pass of the safety loop of lines 83 to 97, from the previous
    adjusted value [prev]; a row is a raw prediction with its raw lower
    and upper bound. *)
Fixpoint safety_loop (recent_pct max_growth_multiplier : R) (prev : float)
    (rows : list (float * (float * float)))
    : list (float * (float * float)) :=
  match rows with
  | [] => []
  | (p, (l, u)) :: rest =>
      let allowed := Py.max (Rabs recent_pct * max_growth_multiplier) floor in
      let max_up := fmul prev (Some (1 + allowed)) in
      let min_down := fmul prev (Some (1 - allowed * max_growth_multiplier)) in
      let p_adj :=
        if (if Rlt_dec recent_pct 0 then true else false) && flt prev p
        then fmin p max_up
        else fmax (fmin p max_up) min_down in
      (p_adj, (fmax min_down l, fmin max_up u))
        :: safety_loop recent_pct max_growth_multiplier p_adj rest
  end.

Section Forecaster.

Variable fit : ExponentialSmoothing.

(** [ets_recursive_forecast(series, steps=3, seasonal_periods=12,
    use_seasonal=True, max_growth_multiplier=3.0)] *)
Definition ets_recursive_forecast (series : series) (steps : nat)
    (seasonal_periods : nat) (use_seasonal : bool)
    (max_growth_multiplier : R) : result ForecastResult :=
  match series with
  | [] => Raise (ValueError "Empty series provided"%string)
  | _ =>
      let s := series in
      let seasonal :=
        if use_seasonal && (2 * seasonal_periods <=? length s)%nat
        then Some "add"%string else None in
      if (length (dropna s) <? 3)%nat then
        let last := iloc_last s NaN in
        Ok {| predictions := repeat last steps;
              lower := repeat last steps;
              upper := repeat last steps;
              fitted := s |}
      else
        let fitted :=
          fit s "add"%string seasonal
              (match seasonal with
               | Some _ => Some seasonal_periods
               | None => None
               end)
              "estimated"%string in
        let preds_raw := forecast fitted steps in
        let resid_std := _residual_std (fittedvalues fitted) s in
        let z := Some 1.96 in
        let lower := map (fun x => fsub x (fmul z resid_std)) preds_raw in
        let upper := map (fun x => fadd x (fmul z resid_std)) preds_raw in
        let preds := preds_raw in
        let lower :=
          map (fun xp => if isnan (fst xp) then snd xp else fst xp)
              (combine lower preds) in
        let upper :=
          map (fun xp => if isnan (fst xp) then snd xp else fst xp)
              (combine upper preds) in
        let recent_pct := recent_pct_of s in
        let prev := iloc_last s NaN in
        let out :=
          safety_loop recent_pct max_growth_multiplier prev
                      (combine preds (combine lower upper)) in
        Ok {| predictions := map fst out;
              lower := map (fun r => fst (snd r)) out;
              upper := map (fun r => snd (snd r)) out;
              fitted := fittedvalues fitted |}
  end.

End Forecaster.

End Forecasting.

(* ================================================================= *)
(** ** The payload exchanged by the narrative builder and the validator *)

Module Payload.
Import Py.

(** The payload dictionary, one field per key the code reads or writes.
    [None] is a key that is absent or holds Python's [None]: the code reads
    every key with [.get], which does not tell the two apart. *)
Record t : Type := mk {
  predictions : option (list R);
  lower : option (list R);
  upper : option (list R);
  volatility_percent : option pyfloat;
  drawdown : option R;
  drawdown_percent : option R;
  momentum_pct_per_month : option R;
  composite_score : option R;
  risk_label : option string;
  last_actual : option R;
  recent_short_pct : option R;
  recent_long_pct : option R;
  stability_index : option R;
  insight : option string;
  forecast_direction_pct : option R;
  consistency_explanation : option string
}.

(** [out['forecast_direction_pct'] = pct] *)
Definition set_forecast_direction_pct (out : t) (pct : R) : t :=
  mk (predictions out) (lower out) (upper out) (volatility_percent out)
     (drawdown out) (drawdown_percent out) (momentum_pct_per_month out)
     (composite_score out) (risk_label out) (last_actual out)
     (recent_short_pct out) (recent_long_pct out) (stability_index out)
     (insight out) (Some pct) (consistency_explanation out).

(** [out['consistency_explanation'] = text] *)
Definition set_consistency_explanation (out : t) (text : string) : t :=
  mk (predictions out) (lower out) (upper out) (volatility_percent out)
     (drawdown out) (drawdown_percent out) (momentum_pct_per_month out)
     (composite_score out) (risk_label out) (last_actual out)
     (recent_short_pct out) (recent_long_pct out) (stability_index out)
     (insight out) (forecast_direction_pct out) (Some text).

(** A payload with no key at all. *)
Definition empty : t :=
  mk None None None None None None None None None None None None None None
     None None.

(** [x == c] for a value read with [.get] and a string literal. *)
Definition str_is (x : option string) (c : string) : bool :=
  match x with
  | Some v => String.eqb v c
  | None => false
  end.

(** The truth value of a float read with [.get]: [None] and [0.0] are
    false. *)
Definition truthy (x : option R) : bool :=
  match x with
  | Some v => if Req_dec_T v 0 then false else true
  | None => false
  end.

End Payload.

(* ================================================================= *)
(** ** backend/consistency_validator.py *)

Module ConsistencyValidator.
Import Py.

Definition instability_sentence : string :=
  "Forecast projects growth but composite risk is High — investigate instability in revenue drivers.".

Definition volatility_sentence : string :=
  "High volatility (>40%) reduces confidence in upward forecast; results may be sensitive to recent noise.".

(** The percent change of lines 19 to 23, [None] when the block is
    skipped ([preds] empty or [last] absent). *)
Definition direction_pct (preds : list R) (last : option R) : option R :=
  match preds, last with
  | _ :: _, Some last =>
      let avg := Py.sum preds / INR (length preds) in
      Some (if Req_dec_T last 0 then 0 else (avg - last) / last)
  | _, _ => None
  end.

(** ['up' if pct > 0 else ('down' if pct < 0 else 'flat')] *)
Definition direction_of (pct : R) : string :=
  if Rlt_dec 0 pct then "up"
  else if Rlt_dec pct 0 then "down"
  else "flat".

(** [validate_and_adjust(payload)] *)
Definition validate_and_adjust (payload : Payload.t) : Payload.t :=
  let out := payload in
  let risk := Payload.risk_label out in
  let volatility := Payload.volatility_percent out in
  let preds :=
    match Payload.predictions out with
    | Some l => l
    | None => []
    end in
  let last := Payload.last_actual out in
  let direction := option_map direction_of (direction_pct preds last) in
  let out :=
    match direction_pct preds last with
    | Some pct => Payload.set_forecast_direction_pct out pct
    | None => out
    end in
  let explanation := [] in
  let explanation :=
    if Payload.str_is direction "up" && Payload.str_is risk "High"
    then explanation ++ [instability_sentence]
    else explanation in
  let explanation :=
    if match volatility with
       | Some v => Py.gt v 40
       | None => false
       end && Payload.str_is direction "up"
    then explanation ++ [volatility_sentence]
    else explanation in
  match explanation with
  | [] => out
  | _ :: _ =>
      Payload.set_consistency_explanation out (String.concat " " explanation)
  end.

End ConsistencyValidator.

(* ================================================================= *)
(** ** backend/insights_engine.py *)

Module InsightsEngine.
Import Py.

(** The three sections of the insight are templates filled with formatted
    numbers.  A section is modelled by the template that was chosen and the
    numbers it is filled with; the wording and the rounding of the
    formatted text are left out. *)

(** The sentence of the trend summary. *)
Inductive trend_summary : Type :=
| DownwardTrend (forecast_pct : R)
| UpwardTrajectory (forecast_pct : R)
| ModestMovement (forecast_pct : R)
| TrendInsufficientData.

(** The risk assessment. *)
Inductive risk_assessment : Type :=
| Classified (risk : string) (score : option R)
             (volatility_drawdown : option (pyfloat * R))
| RiskInsufficientData.

(** The bullet of the recommendation. *)
Inductive recommendation : Type :=
| CriticalActionRequired
| DeclineCloseMonitoring (forecast_pct_change : R)
| GrowthConstrainedByVolatility
| ModerateMixedSignals
| ControlledDecline (forecast_pct_change : R)
| StrongOperationalStability.

Record insight : Type := {
  trend : trend_summary;
  risk : risk_assessment;
  rec : recommendation
}.

(** Thresholds on [recent_short] of the trend summary. *)
Definition summary_decline_threshold : R := -0.15.
Definition summary_growth_threshold : R := 0.10.

(** Thresholds on [recent_short] of the recommendation. *)
Definition rec_decline_threshold : R := -0.10.
Definition rec_growth_threshold : R := 0.10.

(** [avg_forecast]: [sum(preds) / len(preds)], [None] without
    predictions. *)
Definition avg_forecast_of (preds : list R) : option R :=
  match preds with
  | [] => None
  | _ :: _ => Some (Py.sum preds / INR (length preds))
  end.

(** Lines 42 to 53. *)
Definition trend_section (recent_short recent_long avg_forecast last_actual : option R)
    : trend_summary :=
  match recent_short, recent_long, avg_forecast with
  | Some recent_short, Some _, Some avg_forecast =>
      let forecast_pct :=
        match last_actual with
        | Some last_actual =>
            if Payload.truthy (Some last_actual)
            then (avg_forecast - last_actual) / last_actual * 100
            else 0
        | None => 0
        end in
      if Rlt_dec recent_short summary_decline_threshold
      then DownwardTrend forecast_pct
      else if Rlt_dec summary_growth_threshold recent_short
      then UpwardTrajectory forecast_pct
      else ModestMovement forecast_pct
  | _, _, _ => TrendInsufficientData
  end.

(** Lines 56 to 65. *)
Definition risk_section (risk : option string) (score : option R)
    (volatility : option pyfloat) (drawdown : option R) : risk_assessment :=
  match risk with
  | Some risk =>
      Classified risk score
        (match volatility, drawdown with
         | Some v, Some d => Some (v, d)
         | _, _ => None
         end)
  | None => RiskInsufficientData
  end.

(** Lines 72 to 74. *)
Definition forecast_pct_change_of (avg_forecast last_actual : option R) : R :=
  match avg_forecast, last_actual with
  | Some avg, Some last =>
      if Payload.truthy (Some avg) && Payload.truthy (Some last)
      then (avg - last) / last * 100
      else 0
  | _, _ => 0
  end.

(** [recent_short and recent_short < c] *)
Definition below (recent_short : option R) (c : R) : bool :=
  match recent_short with
  | Some v => Payload.truthy (Some v) && (if Rlt_dec v c then true else false)
  | None => false
  end.

(** [recent_short and recent_short > c] *)
Definition above (recent_short : option R) (c : R) : bool :=
  match recent_short with
  | Some v => Payload.truthy (Some v) && (if Rlt_dec c v then true else false)
  | None => false
  end.

(** Lines 76 to 124. *)
Definition recommendation_section (risk : option string)
    (recent_short : option R) (forecast_pct_change : R) : recommendation :=
  if Payload.str_is risk "High" then CriticalActionRequired
  else if Payload.str_is risk "Medium" then
    if below recent_short rec_decline_threshold
    then DeclineCloseMonitoring forecast_pct_change
    else if above recent_short rec_growth_threshold
    then GrowthConstrainedByVolatility
    else ModerateMixedSignals
  else if Payload.str_is risk "Low" && below recent_short rec_decline_threshold
  then ControlledDecline forecast_pct_change
  else StrongOperationalStability.

(** [build_insight(payload)] *)
Definition build_insight (payload : Payload.t) : insight :=
  let preds :=
    match Payload.predictions payload with
    | Some l => l
    | None => []
    end in
  let last_actual := Payload.last_actual payload in
  let volatility := Payload.volatility_percent payload in
  let score := Payload.composite_score payload in
  let risk := Payload.risk_label payload in
  let recent_short := Payload.recent_short_pct payload in
  let recent_long := Payload.recent_long_pct payload in
  let drawdown :=
    match Payload.drawdown payload with
    | Some d => Some d
    | None => Payload.drawdown_percent payload
    end in
  let avg_forecast := avg_forecast_of preds in
  {| trend := trend_section recent_short recent_long avg_forecast last_actual;
     risk := risk_section risk score volatility drawdown;
     rec := recommendation_section risk recent_short
              (forecast_pct_change_of avg_forecast last_actual) |}.

End InsightsEngine.

(* ================================================================= *)
(** ** backend/preprocessing.py *)

Module Preprocessing.
Import Py.

(** A [pd.Timestamp]: a calendar date and the nanoseconds since its
    midnight. *)
Record Timestamp : Type := mkTimestamp {
  year : Z;
  month : nat;
  day : nat;
  nanos : nat
}.

(** A monthly [pd.Period]. *)
Definition Period : Type := (Z * nat)%type.

Definition is_leap (y : Z) : bool :=
  ((y mod 4 =? 0) && negb (y mod 100 =? 0) || (y mod 400 =? 0))%Z.

Definition days_in_month (y : Z) (m : nat) : nat :=
  match m with
  | 2 => if is_leap y then 29 else 28
  | 4 | 6 | 9 | 11 => 30
  | _ => 31
  end%nat.

(** [.dt.to_period('M')] *)
Definition to_period (t : Timestamp) : Period := (year t, month t).

(** [.dt.to_timestamp('M')]: midnight of the last day of the month. *)
Definition to_timestamp (p : Period) : Timestamp :=
  mkTimestamp (fst p) (snd p) (days_in_month (fst p) (snd p)) 0.

Definition month_end (t : Timestamp) : Timestamp :=
  to_timestamp (to_period t).

(** Chronological order of timestamps. *)
Definition ts_eqb (a b : Timestamp) : bool :=
  (year a =? year b)%Z && (month a =? month b)%nat
  && (day a =? day b)%nat && (nanos a =? nanos b)%nat.

Definition ts_ltb (a b : Timestamp) : bool :=
  (year a <? year b)%Z
  || (year a =? year b)%Z
     && ((month a <? month b)%nat
         || (month a =? month b)%nat
            && ((day a <? day b)%nat
                || (day a =? day b)%nat && (nanos a <? nanos b)%nat)).

(** A series with its index: what [prepare_series] returns. *)
Definition MonthlySeries : Type := list (Timestamp * R).

(** A [pd.DataFrame] as [prepare_series] reads it: the column names, a
    column read as datetimes (what [pd.to_datetime(df[c])] gives) and a
    column read as floats.  Parsing is outside the model: a date that does
    not parse makes [pd.to_datetime] raise, a missing date (NaT) is dropped
    by [groupby] with its row, and a value column that is not numeric makes
    the sum fail. *)
Record DataFrame : Type := {
  columns : list string;
  datetimes : string -> list Timestamp;
  floats : string -> list float
}.

(** The float that a sum adds for an entry: a missing entry is skipped. *)
Definition skipna (x : float) : R :=
  match x with
  | Some v => v
  | None => 0
  end.

(** One row more in [groupby(key).sum()]: the groups are kept in the order
    of their keys, each with the sum of its rows so far, added in exact
    arithmetic (in floats the sum of a month depends on the order of its
    rows). *)
Fixpoint group_add (k : Timestamp) (v : float) (groups : MonthlySeries)
    : MonthlySeries :=
  match groups with
  | [] => [(k, 0 + skipna v)]
  | (k', acc) :: rest =>
      if ts_ltb k k' then (k, 0 + skipna v) :: groups
      else if ts_eqb k k' then (k', acc + skipna v) :: rest
      else (k', acc) :: group_add k v rest
  end.

(** [df.groupby(key, as_index=True)[value_col].sum()] *)
Definition groupby_sum (rows : list (Timestamp * float)) : MonthlySeries :=
  fold_left (fun groups row => group_add (fst row) (snd row) groups) rows [].

(** [series.sort_index()]: a stable sort by the index. *)
Fixpoint sort_insert (row : Timestamp * R) (sorted : MonthlySeries)
    : MonthlySeries :=
  match sorted with
  | [] => [row]
  | r :: rest =>
      if ts_ltb (fst row) (fst r) then row :: sorted
      else r :: sort_insert row rest
  end.

Definition sort_index (s : MonthlySeries) : MonthlySeries :=
  fold_right sort_insert [] s.

Definition mem (c : string) (cols : list string) : bool :=
  existsb (String.eqb c) cols.

(** [prepare_series(df, date_col='date', value_col='revenue')] *)
Definition prepare_series (df : DataFrame) (date_col value_col : string)
    : result MonthlySeries :=
  if negb (mem date_col (columns df)) || negb (mem value_col (columns df))
  then
    Raise (ValueError ("Input must contain '" ++ date_col ++ "' and '"
                       ++ value_col ++ "' columns"))
  else
    let dates := datetimes df date_col in
    let __month_end := map month_end dates in
    let grouped := groupby_sum (combine __month_end (floats df value_col)) in
    let series := sort_index grouped in
    Ok series.

(** The table of a monthly series: its index as the column ['date'] and
    its values as the column ['revenue']. *)
Definition to_frame (s : MonthlySeries) : DataFrame :=
  {| columns := ["date"; "revenue"]%string;
     datetimes := fun c => if String.eqb c "date" then map fst s else [];
     floats := fun c =>
       if String.eqb c "revenue" then map (fun r => Some (snd r)) s else [] |}.

(** A normalized monthly series: every index entry is the month-end
    timestamp of its month, and the months strictly ascend (so no month
    occurs twice). *)
Definition period_ltb (p q : Period) : bool :=
  (fst p <? fst q)%Z || (fst p =? fst q)%Z && (snd p <? snd q)%nat.

Fixpoint ascending (ps : list Period) : bool :=
  match ps with
  | [] => true
  | p :: rest =>
      match rest with
      | [] => true
      | q :: _ => period_ltb p q && ascending rest
      end
  end.

Definition month_ends (s : MonthlySeries) : bool :=
  forallb (fun r => ts_eqb (month_end (fst r)) (fst r)) s.

Definition normalized (s : MonthlySeries) : bool :=
  month_ends s && ascending (map (fun r => to_period (fst r)) s).

End Preprocessing.

(* ================================================================= *)
(** ** Vocabulary of the specification *)

Module Spec.
Import Py Pandas.

(** Severity of a risk label: Low, then Medium, then High. *)
Definition severity (label : string) : nat :=
  if String.eqb label "Low" then 0
  else if String.eqb label "Medium" then 1
  else 2.

(** [clamp lo hi x]: [x] clamped to the interval from [lo] to [hi]. *)
Definition clamp (lo hi x : R) : R := Rmax lo (Rmin hi x).

(** The negative part of a momentum: the momentum when it is negative,
    zero otherwise. *)
Definition negative_part (mom : R) : R := if Rlt_dec mom 0 then mom else 0.

(** [min(volatility, 100)] for a volatility that may be infinite. *)
Definition capped (vol : pyfloat) : R :=
  match vol with
  | Finite v => Rmin v 100
  | Inf => 100
  end.

(** The composite score as the specification words it. *)
Definition compositeScore (vol : pyfloat) (mom draw : R) : R :=
  clamp 0 100
    (0.4 * capped vol + 0.3 * Rmin (Rabs (negative_part mom)) 100
     + 0.3 * Rmin draw 100).

(** A series all of whose values equal [c]. *)
Definition constant (c : R) (s : series) : Prop :=
  forall x, In x (dropna s) -> x = c.

(** A series whose values never decrease. *)
Fixpoint nondecreasing (l : list R) : Prop :=
  match l with
  | [] => True
  | x :: t =>
      match t with
      | [] => True
      | y :: _ => x <= y /\ nondecreasing t
      end
  end.

(** The last observed value of a series: its last entry that is not
    missing, and NaN when every entry is missing. *)
Definition last_observed (s : series) : float :=
  last (map Some (dropna s)) NaN.

(** [a <= b] for floats: false as soon as one of them is NaN. *)
Definition fle (a b : float) : Prop :=
  match a, b with
  | Some x, Some y => x <= y
  | _, _ => False
  end.

(** The caps of the anti-rebound adjustment, step by step: [adjusted] are the
    adjusted predictions for the raw predictions [raw], from the previous
    value [prev].  At each step the adjusted value is at most the upper cap
    and, unless the recent change is negative and the raw prediction exceeds
    the previous value, at least the lower cap; the next step starts from
    the adjusted value. *)
Fixpoint within_caps (recentPct : R) (prev : float) (raw adjusted : list float)
    : Prop :=
  match raw, adjusted with
  | [], [] => True
  | p :: raw', a :: adjusted' =>
      let allowed := Rmax (Rabs recentPct * 3) 0.01 in
      let upCap := fmul prev (Some (1 + allowed)) in
      let downCap := fmul prev (Some (1 - allowed * 3)) in
      fle a upCap
      /\ ((recentPct < 0 /\ flt prev p = true) \/ fle downCap a)
      /\ within_caps recentPct a raw' adjusted'
  | _, _ => False
  end.

(** The direction that the validator recomputes: up, down or flat, and
    none when the payload has no prediction or no last actual value. *)
Definition direction (p : Payload.t) : option string :=
  option_map ConsistencyValidator.direction_of
    (ConsistencyValidator.direction_pct
       (match Payload.predictions p with
        | Some l => l
        | None => []
        end)
       (Payload.last_actual p)).

(** [v > c] for a volatility that may be infinite. *)
Definition exceeds (v : pyfloat) (c : R) : Prop :=
  match v with
  | Finite x => c < x
  | Inf => True
  end.

(** Rule (a): the direction is up and the risk label is High. *)
Definition rule_a (p : Payload.t) : Prop :=
  direction p = Some "up"%string /\ Payload.risk_label p = Some "High"%string.

(** Rule (b): the volatility is above 40 and the direction is up. *)
Definition rule_b (p : Payload.t) : Prop :=
  (exists v, Payload.volatility_percent p = Some v /\ exceeds v 40)
  /\ direction p = Some "up"%string.

(** The short-term trend of a payload is below, or above, a threshold. *)
Definition short_trend_below (p : Payload.t) (c : R) : Prop :=
  exists v, Payload.recent_short_pct p = Some v /\ v < c.

Definition short_trend_above (p : Payload.t) (c : R) : Prop :=
  exists v, Payload.recent_short_pct p = Some v /\ c < v.

End Spec.

(* ================================================================= *)
(** ** Facts about the primitives *)

(* ================================================================= *)
(** ** Notions derived from the code *)

Module Derived.
Import Py Pandas Forecasting ConsistencyValidator InsightsEngine Preprocessing.

(** The dictionary of the degenerate case. *)
Definition flat_result (s : series) (steps : nat) : ForecastResult :=
  {| predictions := repeat (iloc_last s NaN) steps;
     lower := repeat (iloc_last s NaN) steps;
     upper := repeat (iloc_last s NaN) steps;
     fitted := s |}.

(** The two tests of the validator. *)
Definition fires_a (p : Payload.t) : bool :=
  Payload.str_is (Spec.direction p) "up"
  && Payload.str_is (Payload.risk_label p) "High".

Definition fires_b (p : Payload.t) : bool :=
  match Payload.volatility_percent p with
  | Some v => Py.gt v 40
  | None => false
  end && Payload.str_is (Spec.direction p) "up".

(** The recommendation of a payload and the percent that its templates
    report. *)
Definition recommendation_of (p : Payload.t) : recommendation :=
  rec (build_insight p).

Definition reported_change (p : Payload.t) : R :=
  forecast_pct_change_of
    (avg_forecast_of (match Payload.predictions p with
                      | Some l => l
                      | None => []
                      end))
    (Payload.last_actual p).

(** The chronological order as a relation. *)
Definition earlier (a b : Timestamp) : Prop := ts_ltb a b = true.

(** Every index entry is earlier than all the entries after it. *)
Fixpoint chronological (keys : list Timestamp) : Prop :=
  match keys with
  | [] => True
  | k :: rest => Forall (earlier k) rest /\ chronological rest
  end.

End Derived.

(* ================================================================= *)
(** ** Concrete inputs *)

Module Examples.
Import Py Pandas Forecasting Preprocessing.

(** Three months at -100. *)
Definition negative_series : series :=
  [Some (-100); Some (-100); Some (-100)].

(** A steep decline of positive values. *)
Definition steep_decline : series := [Some 100; Some 50; Some 10].

(** One sale, then a month with no value. *)
Definition trailing_gap : series := [Some 5; None].

(** A fit that reproduces the history and forecasts -95 at every step. *)
Definition flat_fit : ExponentialSmoothing :=
  fun s _ _ _ _ =>
    {| fittedvalues := s; forecast := fun n => repeat (Some (-95)) n |}.

(** A payload that already carries an explanation and nothing else. *)
Definition stale_payload : Payload.t :=
  Payload.set_consistency_explanation Payload.empty "stale".

(** A payload whose forecast rises from 100 to 110 under High risk and a
    volatility of 50. *)
Definition growth_high_risk : Payload.t :=
  Payload.mk (Some [110]) None None (Some (Finite 50)) None None None None
             (Some "High"%string) (Some 100) None None None None None None.

(** A payload with a prediction, a last actual value of 0 and an explanation
    that it already carries. *)
Definition stale_zero_payload : Payload.t :=
  Payload.mk (Some [1]) None None None None None None None None (Some 0)
             None None None None None (Some "stale"%string).

(** A payload with two predictions and a last actual value of 0. *)
Definition zero_last_payload : Payload.t :=
  Payload.mk (Some [5; 7]) None None (Some (Finite 80)) None None None None
             (Some "High"%string) (Some 0) None None None None None None.

(** A Low-risk payload whose short-term trend is -12%. *)
Definition orderly_decline : Payload.t :=
  Payload.mk (Some [90]) None None (Some (Finite 4)) None (Some 10) None
             (Some 12) (Some "Low"%string) (Some 100) (Some (-0.12))
             (Some (-0.2)) (Some 96) None None None.

(** January and February 2024, at their month ends. *)
Definition two_months : MonthlySeries :=
  [(mkTimestamp 2024 1 31 0, 5000); (mkTimestamp 2024 2 29 0, 5100)].

End Examples.

(** Case analysis on the comparisons of a goal, innermost first, then linear
    arithmetic. *)
Ltac split_comparisons :=
  repeat match goal with
         | |- context [Rlt_dec ?a ?b] =>
             lazymatch a with
             | context [Rlt_dec _ _] => fail
             | _ =>
                 lazymatch b with
                 | context [Rlt_dec _ _] => fail
                 | _ => destruct (Rlt_dec a b)
                 end
             end
         end.

Section PrimitiveFacts.
Import Py Pandas.

Lemma py_min_Rmin (a b : R) : Py.min a b = Rmin a b.
Proof.
  unfold Py.min, Rmin.
  destruct (Rlt_dec b a), (Rle_dec a b); lra.
Qed.

Lemma py_max_Rmax (a b : R) : Py.max a b = Rmax a b.
Proof.
  unfold Py.max, Rmax.
  destruct (Rlt_dec a b), (Rle_dec a b); lra.
Qed.

Lemma fold_left_Rplus_acc (l : list R) (a : R) :
  fold_left Rplus l a = a + fold_left Rplus l 0.
Proof.
  revert a. induction l as [|x l IH]; intro a; simpl.
  - lra.
  - rewrite (IH (a + x)), (IH (0 + x)). lra.
Qed.

Lemma sum_cons (x : R) (l : list R) : Py.sum (x :: l) = x + Py.sum l.
Proof.
  unfold Py.sum. simpl. rewrite fold_left_Rplus_acc. lra.
Qed.

Lemma sum_nil : Py.sum [] = 0.
Proof. reflexivity. Qed.

Lemma sum_repeat (c : R) (n : nat) : Py.sum (repeat c n) = INR n * c.
Proof.
  induction n as [|n IH].
  - simpl. rewrite sum_nil. lra.
  - change (repeat c (S n)) with (c :: repeat c n).
    rewrite sum_cons, IH, S_INR. lra.
Qed.

Lemma all_equal_repeat (c : R) (l : list R) :
  (forall x, In x l -> x = c) -> l = repeat c (length l).
Proof.
  induction l as [|y l IH]; intro H; simpl.
  - reflexivity.
  - rewrite (H y (or_introl eq_refl)). f_equal.
    apply IH. intros x Hx. apply H. right. exact Hx.
Qed.

Lemma mean_repeat (c : R) (n : nat) : (0 < n)%nat -> mean (repeat c n) = c.
Proof.
  intro Hn. unfold mean. rewrite sum_repeat, repeat_length.
  assert (0 < INR n) by (apply lt_0_INR; exact Hn).
  field. lra.
Qed.

Lemma std0_repeat (c : R) (n : nat) : (0 < n)%nat -> std0 (repeat c n) = 0.
Proof.
  intro Hn. unfold std0. rewrite (mean_repeat c n Hn).
  rewrite map_repeat, sum_repeat.
  replace (INR n * ((c - c) * (c - c)) / INR (length (repeat c n))) with 0.
  - apply sqrt_0.
  - unfold Rdiv. ring.
Qed.

Lemma iloc_last_n_incl {A : Type} (n : nat) (l : list A) (x : A) :
  In x (iloc_last_n n l) -> In x l.
Proof.
  destruct n as [|n]; simpl; intro H.
  - exact H.
  - rewrite <- (firstn_skipn (length l - S n) l).
    apply in_or_app. right. exact H.
Qed.


End PrimitiveFacts.

(* ================================================================= *)
(** ** Risk scoring *)

Section RiskProperties.
Import Py Pandas RiskAnalysis.

Lemma classify_score_low (score : R) :
  classify_score score = "Low"%string <-> score < 30.
Proof.
  unfold classify_score.
  destruct (Rlt_dec score 30); [|destruct (Rlt_dec score 60)];
    split; intro H; try reflexivity; try discriminate; try lra.
Qed.

Lemma classify_score_medium (score : R) :
  classify_score score = "Medium"%string <-> 30 <= score < 60.
Proof.
  unfold classify_score.
  destruct (Rlt_dec score 30); [|destruct (Rlt_dec score 60)];
    split; intro H; try reflexivity; try discriminate; try lra.
Qed.

Lemma classify_score_high (score : R) :
  classify_score score = "High"%string <-> 60 <= score.
Proof.
  unfold classify_score.
  destruct (Rlt_dec score 30); [|destruct (Rlt_dec score 60)];
    split; intro H; try reflexivity; try discriminate; try lra.
Qed.

Lemma classify_score_monotone (a b : R) :
  a <= b ->
  (Spec.severity (classify_score a) <= Spec.severity (classify_score b))%nat.
Proof.
  intro Hab. unfold classify_score.
  destruct (Rlt_dec a 30); [|destruct (Rlt_dec a 60)];
    (destruct (Rlt_dec b 30); [|destruct (Rlt_dec b 60)]);
    unfold Spec.severity; cbn; try lia; lra.
Qed.

(** C5.  [classify_score] returns Low exactly for scores below 30, Medium
    exactly for scores from 30 (included) to 60 (excluded) and High exactly
    for scores from 60 (included); so 29.999 is Low, 30.0 is Medium, 59.999
    is Medium and 60.0 is High; and the severity of the label never
    decreases when the score grows. *)
Theorem classify_score_bands :
  (forall score : R,
      (classify_score score = "Low"%string <-> score < 30)
      /\ (classify_score score = "Medium"%string <-> 30 <= score < 60)
      /\ (classify_score score = "High"%string <-> 60 <= score))
  /\ classify_score 29.999 = "Low"%string
  /\ classify_score 30.0 = "Medium"%string
  /\ classify_score 59.999 = "Medium"%string
  /\ classify_score 60.0 = "High"%string
  /\ (forall a b : R,
         a <= b ->
         (Spec.severity (classify_score a)
          <= Spec.severity (classify_score b))%nat).
Proof.
  split; [|repeat split].
  - intro score. split; [|split].
    + apply classify_score_low.
    + apply classify_score_medium.
    + apply classify_score_high.
  - apply classify_score_low. lra.
  - apply classify_score_medium. lra.
  - apply classify_score_medium. lra.
  - apply classify_score_high. lra.
  - exact classify_score_monotone.
Qed.

Lemma volatility_percent_empty (s : series) (window : nat) :
  dropna s = [] -> volatility_percent s window = Finite 0.
Proof.
  intro H. unfold volatility_percent. rewrite H. reflexivity.
Qed.

Lemma volatility_percent_zero_mean (s : series) (window : nat) :
  dropna s <> [] ->
  mean (iloc_last_n window (dropna s)) = 0 ->
  volatility_percent s window = Inf.
Proof.
  intros Hne Hmean. unfold volatility_percent.
  destruct (dropna s) as [|x l] eqn:E; [congruence|].
  destruct (Req_dec_T (mean (iloc_last_n window (x :: l))) 0);
    [reflexivity|contradiction].
Qed.

Lemma momentum_score_short (s : series) (months : nat) :
  (length (dropna s) < 2)%nat -> momentum_score s months = 0.
Proof.
  intro H. unfold momentum_score.
  apply Nat.ltb_lt in H. rewrite H. reflexivity.
Qed.

Lemma momentum_score_zero_mean (s : series) (months : nat) :
  mean (iloc_last_n (Nat.min months (length (dropna s) - 1) + 1) (dropna s))
  = 0 ->
  momentum_score s months = 0.
Proof.
  intro Hmean. unfold momentum_score.
  destruct (length (dropna s) <? 2)%nat; [reflexivity|].
  destruct (Req_dec_T _ 0); [reflexivity|contradiction].
Qed.

(** C7.  Sentinels in place of a division by zero.  [volatility_percent]
    is 0 for a series with no value and infinite when the mean of the last
    [window] values is exactly 0; [momentum_score] is 0 for a series with
    fewer than 2 values and when the mean of its window is 0.  Both
    functions are total: they return a value, never an exception, and the
    value of [volatility_percent] is a number or the infinity. *)
Theorem division_by_zero_sentinels :
  (forall (s : series) (window : nat),
      dropna s = [] -> volatility_percent s window = Finite 0)
  /\ (forall window : nat, volatility_percent [] window = Finite 0)
  /\ (forall (s : series) (window : nat),
         dropna s <> [] ->
         mean (iloc_last_n window (dropna s)) = 0 ->
         volatility_percent s window = Inf)
  /\ (forall (s : series) (months : nat),
         (length (dropna s) < 2)%nat -> momentum_score s months = 0)
  /\ (forall (s : series) (months : nat),
         mean (iloc_last_n (Nat.min months (length (dropna s) - 1) + 1)
                           (dropna s)) = 0 ->
         momentum_score s months = 0).
Proof.
  split; [|split; [|split; [|split]]].
  - exact volatility_percent_empty.
  - intro window. reflexivity.
  - exact volatility_percent_zero_mean.
  - exact momentum_score_short.
  - exact momentum_score_zero_mean.
Qed.

Lemma maximum_nondecreasing (x : R) (t : list R) :
  Spec.nondecreasing (x :: t) -> fold_left Py.max t x = last (x :: t) 0.
Proof.
  revert x. induction t as [|y t IH]; intros x H.
  - reflexivity.
  - destruct H as [Hxy Ht].
    change (fold_left Py.max (y :: t) x)
      with (fold_left Py.max t (Py.max x y)).
    assert (E : Py.max x y = y)
      by (unfold Py.max; destruct (Rlt_dec x y); lra).
    rewrite E, (IH y Ht). reflexivity.
Qed.



Lemma dropna_exact (s : series) : Floating.dropna s = dropna s.
Proof.
  induction s as [|[x|] s IH]; cbn [Floating.dropna dropna];
    [reflexivity | rewrite IH; reflexivity | exact IH].
Qed.

(** The volatility of the other sections is the volatility of this formula
    in exact arithmetic. *)
Lemma volatility_percent_exact (s : series) (window : nat) :
  Floating.to_pyfloat (Floating.volatility_percent s window)
  = volatility_percent s window.
Proof.
  unfold Floating.volatility_percent, volatility_percent.
  rewrite dropna_exact.
  destruct (dropna s) as [|x l]; [reflexivity|].
  cbv zeta. cbn [Floating.op_eq Floating.exact].
  change (Floating.mean (iloc_last_n window (x :: l)))
    with (mean (iloc_last_n window (x :: l))).
  change (@Floating.zero R Floating.exact) with 0.
  destruct (Req_dec_T (mean (iloc_last_n window (x :: l))) 0); reflexivity.
Qed.




Lemma volatility_percent_constant_zero (s : series) (window : nat) :
  Spec.constant 0 s -> dropna s <> [] -> volatility_percent s window = Inf.
Proof.
  intros Hc Hne. apply volatility_percent_zero_mean; [exact Hne|].
  set (recent := iloc_last_n window (dropna s)).
  assert (Hall : forall y, In y recent -> y = 0).
  { intros y Hy. apply Hc.
    exact (iloc_last_n_incl window (dropna s) y Hy). }
  rewrite (all_equal_repeat 0 recent Hall).
  unfold mean. rewrite sum_repeat. unfold Rdiv. ring.
Qed.

Lemma drawdown_nondecreasing (s : series) :
  Spec.nondecreasing (dropna s) -> peak_to_current_drawdown s = 0.
Proof.
  intro H. unfold peak_to_current_drawdown.
  destruct (dropna s) as [|x t] eqn:E; [reflexivity|].
  unfold maximum, iloc_last. rewrite (maximum_nondecreasing x t H).
  destruct (Req_dec_T (last (x :: t) 0) 0); [reflexivity|].
  unfold Rdiv. ring.
Qed.



Lemma min_cap_capped (vol : pyfloat) : min_cap vol 100 = Spec.capped vol.
Proof.
  destruct vol as [v|]; simpl; [apply py_min_Rmin | reflexivity].
Qed.

Lemma trend_norm_negative_part (mom : R) :
  Py.min (Rabs (- Py.min mom 0)) 100
  = Rmin (Rabs (Spec.negative_part mom)) 100.
Proof.
  rewrite py_min_Rmin. f_equal. rewrite Rabs_Ropp. f_equal.
  unfold Py.min, Spec.negative_part.
  destruct (Rlt_dec 0 mom), (Rlt_dec mom 0); lra.
Qed.

Lemma composite_risk_score_formula (s : series) :
  composite_risk_score s
  = Spec.compositeScore (volatility_percent s 12) (momentum_score s 6)
                        (peak_to_current_drawdown s).
Proof.
  unfold composite_risk_score, Spec.compositeScore, Spec.clamp.
  rewrite py_max_Rmax, py_min_Rmin, min_cap_capped,
    trend_norm_negative_part, py_min_Rmin.
  reflexivity.
Qed.

Lemma clamp_range (x : R) : 0 <= Spec.clamp 0 100 x <= 100.
Proof.
  unfold Spec.clamp, Rmax, Rmin.
  destruct (Rle_dec 100 x); destruct (Rle_dec 0 _); lra.
Qed.

(** C2.  The composite score of a series is
    0.4 * min(volatility, 100) + 0.3 * min(|negative part of the 6-month
    momentum|, 100) + 0.3 * min(drawdown, 100), clamped to the interval from
    0 to 100; it lies in that interval for every series; and a 6-month
    momentum that is not negative contributes exactly zero: the score is
    then the clamped blend of volatility and drawdown alone. *)
Theorem composite_risk_score_spec (s : series) :
  composite_risk_score s
  = Spec.compositeScore (volatility_percent s 12) (momentum_score s 6)
                        (peak_to_current_drawdown s)
  /\ 0 <= composite_risk_score s <= 100
  /\ (0 <= momentum_score s 6 ->
      composite_risk_score s
      = Spec.clamp 0 100
          (0.4 * Spec.capped (volatility_percent s 12)
           + 0.3 * Rmin (peak_to_current_drawdown s) 100)).
Proof.
  rewrite composite_risk_score_formula. split; [reflexivity|]. split.
  - apply clamp_range.
  - intro Hmom. unfold Spec.compositeScore. f_equal.
    assert (E : Spec.negative_part (momentum_score s 6) = 0)
      by (unfold Spec.negative_part; destruct (Rlt_dec _ 0); lra).
    rewrite E, Rabs_R0.
    assert (E2 : Rmin 0 100 = 0)
      by (unfold Rmin; destruct (Rle_dec 0 100); lra).
    rewrite E2. lra.
Qed.

Lemma classify_score_bands_witness :
  (Spec.severity (classify_score 29.999)
   <= Spec.severity (classify_score 60.0))%nat.
Proof.
  destruct classify_score_bands as (_ & _ & _ & _ & _ & Hmono).
  apply Hmono. lra.
Defined.

Lemma division_by_zero_sentinels_witness :
  volatility_percent [None; None] 12 = Finite 0
  /\ volatility_percent [Some 1; Some (-1)] 12 = Inf
  /\ momentum_score [Some 7; None] 3 = 0
  /\ momentum_score [Some 1; Some (-1)] 3 = 0.
Proof.
  destruct division_by_zero_sentinels as (Hempty & _ & Hvol & Hshort & Hmom).
  split; [|split; [|split]].
  - apply Hempty. reflexivity.
  - apply Hvol; [discriminate|].
    unfold mean, Py.sum. cbn. lra.
  - apply Hshort. cbn. lia.
  - apply Hmom. unfold mean, Py.sum. cbn. lra.
Defined.


Lemma composite_risk_score_spec_witness :
  composite_risk_score [Some 5]
  = Spec.clamp 0 100
      (0.4 * Spec.capped (volatility_percent [Some 5] 12)
       + 0.3 * Rmin (peak_to_current_drawdown [Some 5]) 100).
Proof.
  destruct (composite_risk_score_spec [Some 5]) as (_ & _ & Hpositive).
  apply Hpositive. unfold momentum_score. cbn. lra.
Defined.

End RiskProperties.

(* ================================================================= *)
(** ** Forecasting *)

Section ForecastProperties.
Import Py Pandas Forecasting Derived Examples.

(** One step of the safety loop on numbers. *)
Lemma safety_loop_step (recent_pct m prev p : R) (l u : float)
    (rest : list (float * (float * float))) :
  let allowed := Py.max (Rabs recent_pct * m) floor in
  let max_up := prev * (1 + allowed) in
  let min_down := prev * (1 - allowed * m) in
  let p_adj :=
    if Rlt_dec recent_pct 0
    then if Rlt_dec prev p then Py.min p max_up
         else Py.max (Py.min p max_up) min_down
    else Py.max (Py.min p max_up) min_down in
  safety_loop recent_pct m (Some prev) ((Some p, (l, u)) :: rest)
  = (Some p_adj, (fmax (Some min_down) l, fmin (Some max_up) u))
      :: safety_loop recent_pct m (Some p_adj) rest.
Proof.
  cbn zeta. cbn [safety_loop fmul lift2 flt].
  set (allowed := Py.max (Rabs recent_pct * m) floor).
  set (max_up := prev * (1 + allowed)).
  set (min_down := prev * (1 - allowed * m)).
  assert (Hmin : fmin (Some p) (Some max_up) = Some (Py.min p max_up)).
  { unfold fmin, flt, Py.min. destruct (Rlt_dec max_up p); reflexivity. }
  assert (Hmax : fmax (Some (Py.min p max_up)) (Some min_down)
                 = Some (Py.max (Py.min p max_up) min_down)).
  { unfold fmax, flt, Py.max.
    destruct (Rlt_dec (Py.min p max_up) min_down); reflexivity. }
  rewrite Hmin, Hmax.
  destruct (Rlt_dec recent_pct 0); destruct (Rlt_dec prev p); reflexivity.
Qed.

Lemma allowed_positive (recent_pct : R) :
  0 < Py.max (Rabs recent_pct * 3) floor.
Proof.
  unfold Py.max, floor.
  destruct (Rlt_dec (Rabs recent_pct * 3) 0.01); lra.
Qed.

(** From a previous value that is not negative, a step keeps the adjusted
    prediction under the upper cap and, outside the rebound case, above the
    lower cap; the adjusted prediction of a raw prediction that is not
    negative is not negative either. *)
Lemma safety_step_caps (recent_pct prev p : R) :
  0 <= prev ->
  let allowed := Py.max (Rabs recent_pct * 3) floor in
  let max_up := prev * (1 + allowed) in
  let min_down := prev * (1 - allowed * 3) in
  let p_adj :=
    if Rlt_dec recent_pct 0
    then if Rlt_dec prev p then Py.min p max_up
         else Py.max (Py.min p max_up) min_down
    else Py.max (Py.min p max_up) min_down in
  p_adj <= max_up
  /\ ((recent_pct < 0 /\ prev < p) \/ min_down <= p_adj)
  /\ (0 <= p -> 0 <= p_adj).
Proof.
  intros Hprev allowed max_up min_down p_adj.
  pose proof (allowed_positive recent_pct) as Hall. fold allowed in Hall.
  assert (Hcaps : min_down <= max_up) by (unfold min_down, max_up; nra).
  assert (Hup : 0 <= max_up) by (unfold max_up; nra).
  unfold p_adj, Py.min, Py.max.
  destruct (Rlt_dec recent_pct 0); destruct (Rlt_dec prev p);
    destruct (Rlt_dec max_up p);
    repeat match goal with
           | |- context [Rlt_dec ?a ?b] => destruct (Rlt_dec a b)
           end;
    (split; [lra | split; [first [right; lra | left; lra] | intro; lra]]).
Qed.

(** With a last value and raw predictions that are not negative, every step
    of the safety loop stays within the caps. *)
Lemma safety_loop_within_caps (recent_pct : R) (raw : list R) :
  forall (prev : R) (bounds : list (float * float)),
    0 <= prev ->
    Forall (fun p => 0 <= p) raw ->
    length bounds = length raw ->
    Spec.within_caps recent_pct (Some prev) (map Some raw)
      (map fst (safety_loop recent_pct 3 (Some prev)
                            (combine (map Some raw) bounds))).
Proof.
  induction raw as [|p raw IH]; intros prev bounds Hprev Hraw Hlen.
  - exact I.
  - destruct bounds as [|[l u] bounds]; [discriminate|].
    inversion Hraw as [|? ? Hp Hrest]; subst.
    change (combine (map Some (p :: raw)) ((l, u) :: bounds))
      with ((Some p, (l, u)) :: combine (map Some raw) bounds).
    rewrite safety_loop_step.
    pose proof (safety_step_caps recent_pct prev p Hprev) as Hstep.
    cbn zeta in Hstep. destruct Hstep as (Hup & Hdown & Hnonneg).
    cbn [map fst Spec.within_caps fmul lift2 Spec.fle flt].
    rewrite <- py_max_Rmax. fold floor.
    split; [exact Hup|]. split.
    + destruct Hdown as [[Hneg Hlt]|Hdown]; [left|right; exact Hdown].
      split; [exact Hneg|]. destruct (Rlt_dec prev p); [reflexivity|lra].
    + apply IH; [apply Hnonneg; exact Hp | exact Hrest |].
      simpl in Hlen. lia.
Qed.

(** The forecaster keeps every step within the caps when the last value of
    the series and the raw predictions of the fit are numbers that are not
    negative. *)
Lemma forecast_within_caps_nonnegative
    (fit : ExponentialSmoothing) (s : series) (steps seasonal_periods : nat)
    (use_seasonal : bool) (prev : R) (raw : list R) :
  (3 <= length (dropna s))%nat ->
  iloc_last s NaN = Some prev ->
  0 <= prev ->
  (forall trend seasonal periods init,
      forecast (fit s trend seasonal periods init) steps = map Some raw) ->
  Forall (fun p => 0 <= p) raw ->
  exists r : ForecastResult,
    ets_recursive_forecast fit s steps seasonal_periods use_seasonal 3 = Ok r
    /\ Spec.within_caps (recent_pct_of s) (Some prev) (map Some raw)
                        (predictions r).
Proof.
  intros Hlen Hlast Hprev Hfit Hraw.
  unfold ets_recursive_forecast.
  destruct s as [|x s']; [simpl in Hlen; lia|].
  assert (Hge : (length (dropna (x :: s')) <? 3)%nat = false)
    by (apply Nat.ltb_ge; exact Hlen).
  rewrite Hge, Hfit, Hlast.
  eexists. split; [reflexivity|].
  cbn [predictions].
  apply safety_loop_within_caps; [exact Hprev | exact Hraw |].
  rewrite length_combine, !length_map, !length_combine, !length_map.
  lia.
Qed.

(** The recent change of three equal values is 0. *)
Lemma recent_pct_negative_series : recent_pct_of negative_series = 0.
Proof.
  unfold recent_pct_of, negative_series. cbn.
  unfold mean, Py.sum. cbn. lra.
Qed.

Lemma negative_series_adjusted (p : R) :
  let allowed := Py.max (Rabs 0 * 3) floor in
  let max_up := -100 * (1 + allowed) in
  let min_down := -100 * (1 - allowed * 3) in
  (if Rlt_dec 0 0
   then if Rlt_dec (-100) p then Py.min p max_up
        else Py.max (Py.min p max_up) min_down
   else Py.max (Py.min p max_up) min_down) = -97
  /\ max_up = -101.
Proof.
  cbn zeta.
  assert (Hall : Py.max (Rabs 0 * 3) floor = 0.01).
  { rewrite Rabs_R0. unfold Py.max, floor.
    destruct (Rlt_dec (0 * 3) 0.01); lra. }
  rewrite Hall. split; [|lra].
  destruct (Rlt_dec 0 0); [lra|].
  unfold Py.max, Py.min.
  destruct (Rlt_dec (-100 * (1 + 0.01)) p);
    match goal with
    | |- context [Rlt_dec ?a ?b] => destruct (Rlt_dec a b)
    end; lra.
Qed.

(** C1, failing input.  On the series of three values -100 the recent
    change is 0, so the step is not a rebound against a decline and both caps
    apply: the upper cap is -101 and the lower cap is -97.  Whatever the raw
    prediction [p] of the fit, the first adjusted prediction is the lower
    cap -97, which exceeds the upper cap: the adjusted predictions are not
    within the caps. *)
Theorem upper_cap_exceeded_on_negative_series
    (fit : ExponentialSmoothing) (steps : nat) (p : R) (rest : list float) :
  forecast (fit negative_series "add"%string None None "estimated"%string)
           steps = Some p :: rest ->
  exists r : ForecastResult,
    ets_recursive_forecast fit negative_series steps 12 true 3 = Ok r
    /\ hd NaN (predictions r) = Some (-97)
    /\ ~ Spec.within_caps (recent_pct_of negative_series)
                          (iloc_last negative_series NaN)
                          (Some p :: rest) (predictions r).
Proof.
  intro Hfit.
  unfold ets_recursive_forecast.
  change (length (dropna negative_series) <? 3)%nat with false.
  change (true && (2 * 12 <=? length negative_series)%nat) with false.
  cbv iota. rewrite Hfit, recent_pct_negative_series.
  change (iloc_last negative_series NaN) with (Some (-100)).
  eexists. split; [reflexivity|].
  cbn [predictions map combine].
  rewrite safety_loop_step.
  destruct (negative_series_adjusted p) as [Hadj Hup].
  cbn zeta in Hadj, Hup. rewrite Hadj.
  cbn [map fst hd]. split; [reflexivity|].
  cbn [Spec.within_caps fmul lift2 Spec.fle].
  intros [Hcap _]. rewrite Rabs_R0 in Hcap.
  unfold Rmax in Hcap. destruct (Rle_dec (0 * 3) 0.01); lra.
Qed.

Lemma upper_cap_exceeded_witness :
  exists r : ForecastResult,
    ets_recursive_forecast flat_fit negative_series 1 12 true 3 = Ok r
    /\ hd NaN (predictions r) = Some (-97)
    /\ ~ Spec.within_caps (recent_pct_of negative_series)
                          (iloc_last negative_series NaN)
                          [Some (-95)] (predictions r).
Proof.
  apply (upper_cap_exceeded_on_negative_series flat_fit 1 (-95) []).
  reflexivity.
Defined.

(** The same defect on a history of positive values.  After 100, 50, 10 the
    recent change is -65% and the lower cap of the first step is negative; a
    raw prediction of -30 is kept, and from that negative value the caps of
    the next step are crossed: whatever follows a raw prediction of -70 is
    the "lower" cap 145.5, above the upper cap -88.5. *)
Lemma recent_pct_steep_decline : recent_pct_of steep_decline = -0.65.
Proof.
  unfold recent_pct_of, steep_decline. cbn.
  unfold mean, Py.sum. cbn. lra.
Qed.

Lemma rebound_after_negative_step (l0 u0 l1 u1 : float) :
  map fst (safety_loop (-0.65) 3 (Some 10)
             [(Some (-30), (l0, u0)); (Some (-70), (l1, u1))])
  = [Some (-30); Some 145.5].
Proof.
  assert (Hall : Py.max (Rabs (-0.65) * 3) floor = 1.95).
  { unfold Py.max, floor, Rabs.
    destruct (Rcase_abs (-0.65)); [|lra].
    destruct (Rlt_dec (- -0.65 * 3) 0.01); lra. }
  rewrite safety_loop_step. cbn zeta. rewrite Hall.
  assert (H0 : (if Rlt_dec (-0.65) 0
                then if Rlt_dec 10 (-30)
                     then Py.min (-30) (10 * (1 + 1.95))
                     else Py.max (Py.min (-30) (10 * (1 + 1.95)))
                                 (10 * (1 - 1.95 * 3))
                else Py.max (Py.min (-30) (10 * (1 + 1.95)))
                            (10 * (1 - 1.95 * 3))) = -30).
  { unfold Py.max, Py.min. split_comparisons; lra. }
  rewrite H0, safety_loop_step. cbn zeta. rewrite Hall.
  assert (H1 : (if Rlt_dec (-0.65) 0
                then if Rlt_dec (-30) (-70)
                     then Py.min (-70) (-30 * (1 + 1.95))
                     else Py.max (Py.min (-70) (-30 * (1 + 1.95)))
                                 (-30 * (1 - 1.95 * 3))
                else Py.max (Py.min (-70) (-30 * (1 + 1.95)))
                            (-30 * (1 - 1.95 * 3))) = 145.5).
  { unfold Py.max, Py.min. split_comparisons; lra. }
  rewrite H1. reflexivity.
Qed.

Lemma last_observed_app (s : series) (v : R) :
  Spec.last_observed (s ++ [Some v]) = Some v.
Proof.
  unfold Spec.last_observed.
  assert (E : forall l : series, dropna (l ++ [Some v]) = dropna l ++ [v]).
  { induction l as [|[x|] l IH]; cbn [app dropna]; [reflexivity | |];
      rewrite IH; reflexivity. }
  rewrite E, map_app. cbn [map]. apply last_last.
Qed.

(** Where the final entry of a series is a number, it is the last observed
    value. *)
Lemma last_observed_final_entry (s : series) (v : R) :
  iloc_last s NaN = Some v -> Spec.last_observed s = Some v.
Proof.
  unfold iloc_last. destruct s as [|a s']; [discriminate|].
  assert (Hne : a :: s' <> []) by discriminate.
  destruct (exists_last Hne) as [l [x E]]. rewrite E, last_last.
  intros ->. apply last_observed_app.
Qed.

(** A series with an observed value has a last observed value. *)
Lemma last_observed_present (s : series) :
  dropna s <> [] -> isnan (Spec.last_observed s) = false.
Proof.
  unfold Spec.last_observed. intro Hne.
  destruct (exists_last Hne) as [l [x ->]].
  rewrite map_app. cbn [map]. rewrite last_last. reflexivity.
Qed.

Lemma repeat_differs {A : Type} (a b : A) (n : nat) :
  (1 <= n)%nat -> a <> b -> repeat a n <> repeat b n.
Proof.
  intros Hn Hab H. destruct n as [|n]; [lia|].
  cbn [repeat] in H. injection H as H _. contradiction.
Qed.

(** C4.  The degenerate forecast repeats the final entry of the series,
    [s.iloc[-1]], and not its last observed value.  For a series that is
    not empty and has fewer than 3 values that are not missing, for every
    number of steps and whatever the fit, the predictions, the lower and
    the upper bounds are the final entry repeated; the fit is not consulted.
    Where the final entry is a number, that is the last observed value, as
    the claim says.  Where the final entry is missing and an earlier value
    was observed, the forecast is NaN at every step, and so is not the last
    observed value repeated. *)
Theorem degenerate_forecast_misses_last_observed
    (fit : ExponentialSmoothing) (s : series) (steps seasonal_periods : nat)
    (use_seasonal : bool) (max_growth_multiplier : R) :
  s <> [] ->
  (length (dropna s) < 3)%nat ->
  ets_recursive_forecast fit s steps seasonal_periods use_seasonal
                         max_growth_multiplier
  = Ok (flat_result s steps)
  /\ predictions (flat_result s steps) = repeat (iloc_last s NaN) steps
  /\ lower (flat_result s steps) = predictions (flat_result s steps)
  /\ upper (flat_result s steps) = predictions (flat_result s steps)
  /\ (forall v : R,
         iloc_last s NaN = Some v ->
         predictions (flat_result s steps)
         = repeat (Spec.last_observed s) steps)
  /\ (iloc_last s NaN = NaN ->
      dropna s <> [] ->
      predictions (flat_result s steps) = repeat NaN steps
      /\ isnan (Spec.last_observed s) = false
      /\ ((1 <= steps)%nat ->
          predictions (flat_result s steps)
          <> repeat (Spec.last_observed s) steps)).
Proof.
  intros Hne Hlen.
  split; [|split; [reflexivity|split; [reflexivity|split; [reflexivity|split]]]].
  - unfold ets_recursive_forecast.
    destruct s as [|x s']; [congruence|].
    apply Nat.ltb_lt in Hlen. rewrite Hlen. reflexivity.
  - intros v Hv. cbn [flat_result predictions].
    rewrite (last_observed_final_entry s v Hv), Hv. reflexivity.
  - intros Hgap Hobserved.
    pose proof (last_observed_present s Hobserved) as Hp.
    cbn [flat_result predictions]. rewrite Hgap.
    split; [reflexivity|]. split; [exact Hp|].
    intro Hsteps. apply repeat_differs; [exact Hsteps|].
    destruct (Spec.last_observed s); discriminate.
Qed.

Lemma degenerate_forecast_misses_last_observed_witness :
  ets_recursive_forecast flat_fit trailing_gap 3 12 true 3
  = Ok {| predictions := [NaN; NaN; NaN];
          lower := [NaN; NaN; NaN];
          upper := [NaN; NaN; NaN];
          fitted := trailing_gap |}
  /\ Spec.last_observed trailing_gap = Some 5.
Proof.
  split; [|reflexivity].
  apply (degenerate_forecast_misses_last_observed
           flat_fit trailing_gap 3 12 true 3).
  - discriminate.
  - simpl. lia.
Defined.

End ForecastProperties.

(* ================================================================= *)
(** ** Consistency validation *)

Section ValidatorProperties.
Import Py ConsistencyValidator Derived Examples.

Lemma str_is_true (x : option string) (c : string) :
  Payload.str_is x c = true <-> x = Some c.
Proof.
  destruct x as [v|]; simpl.
  - rewrite String.eqb_eq. split; [intros ->; reflexivity | congruence].
  - split; discriminate.
Qed.

Lemma py_gt_exceeds (v : pyfloat) (c : R) :
  Py.gt v c = true <-> Spec.exceeds v c.
Proof.
  destruct v as [x|]; simpl.
  - destruct (Rlt_dec c x); split; intro H;
      first [reflexivity | assumption | discriminate | contradiction].
  - split; intro; [exact I | reflexivity].
Qed.

Lemma fires_a_rule (p : Payload.t) : fires_a p = true <-> Spec.rule_a p.
Proof.
  unfold fires_a, Spec.rule_a.
  rewrite andb_true_iff, !str_is_true. reflexivity.
Qed.

Lemma fires_b_rule (p : Payload.t) : fires_b p = true <-> Spec.rule_b p.
Proof.
  unfold fires_b, Spec.rule_b. rewrite andb_true_iff, str_is_true.
  destruct (Payload.volatility_percent p) as [v|].
  - rewrite py_gt_exceeds. split.
    + intros [Hv Hd]. split; [exists v; split; [reflexivity|exact Hv]|exact Hd].
    + intros [[w [Hw Hv]] Hd]. injection Hw as ->. split; assumption.
  - split.
    + intros [H _]. discriminate.
    + intros [[w [Hw _]] _]. discriminate.
Qed.

(** The explanation of the output: the sentences of the rules that fire,
    joined by one space; with no rule firing the validator leaves the field
    as the payload had it. *)
Lemma validate_and_adjust_explanation (p : Payload.t) :
  Payload.consistency_explanation (validate_and_adjust p)
  = match fires_a p, fires_b p with
    | true, true =>
        Some (instability_sentence ++ " " ++ volatility_sentence)%string
    | true, false => Some instability_sentence
    | false, true => Some volatility_sentence
    | false, false => Payload.consistency_explanation p
    end.
Proof.
  unfold validate_and_adjust. fold (Spec.direction p).
  fold (fires_a p). fold (fires_b p).
  destruct (fires_a p), (fires_b p); cbn [app]; try reflexivity.
  destruct (direction_pct _ _); reflexivity.
Qed.

(** C3, as stated, fails.  The validator copies the payload and only ever
    adds the explanation: on a payload that already carries one, no rule
    fires and yet the field is present in the output. *)
Lemma stale_explanation_survives :
  ~ (Spec.rule_a stale_payload \/ Spec.rule_b stale_payload)
  /\ Payload.consistency_explanation (validate_and_adjust stale_payload)
     = Some "stale"%string.
Proof.
  split; [|reflexivity].
  intros [[H _]|[_ H]]; discriminate.
Qed.

(** The sentence of rule (a) names the instability, the one of rule (b) the
    volatility. *)
Lemma sentences_mention :
  (exists n : nat,
      String.substring n 11 instability_sentence = "instability"%string)
  /\ (exists n : nat,
         String.substring n 15 volatility_sentence = "High volatility"%string).
Proof.
  split; [exists 68%nat | exists 0%nat]; reflexivity.
Qed.

Lemma sentences_not_empty :
  instability_sentence <> ""%string
  /\ volatility_sentence <> ""%string
  /\ (instability_sentence ++ " " ++ volatility_sentence)%string <> ""%string.
Proof. repeat split; discriminate. Qed.

(** C3, amended.  For every payload that does not already carry a
    consistency explanation, the explanation is present in the output if and
    only if a contradiction rule fires: rule (a), direction up with risk
    High, gives the instability sentence and rule (b), volatility above 40
    with direction up, gives the volatility sentence; the sentences of the
    rules that fire are joined by one space, and when none fires the field
    stays absent (it is never the empty string).  A direction down with risk
    Low leaves it absent. *)
Theorem consistency_explanation_iff_rule_fires (p : Payload.t) :
  Payload.consistency_explanation p = None ->
  let out := validate_and_adjust p in
  (Payload.consistency_explanation out <> None
   <-> Spec.rule_a p \/ Spec.rule_b p)
  /\ (Spec.rule_a p -> Spec.rule_b p ->
      Payload.consistency_explanation out
      = Some (instability_sentence ++ " " ++ volatility_sentence)%string)
  /\ (Spec.rule_a p -> ~ Spec.rule_b p ->
      Payload.consistency_explanation out = Some instability_sentence)
  /\ (~ Spec.rule_a p -> Spec.rule_b p ->
      Payload.consistency_explanation out = Some volatility_sentence)
  /\ (~ Spec.rule_a p -> ~ Spec.rule_b p ->
      Payload.consistency_explanation out = None)
  /\ Payload.consistency_explanation out <> Some ""%string
  /\ (Spec.direction p = Some "down"%string ->
      Payload.risk_label p = Some "Low"%string ->
      Payload.consistency_explanation out = None).
Proof.
  intros Habsent out. unfold out.
  rewrite validate_and_adjust_explanation, Habsent.
  pose proof (fires_a_rule p) as Ha. pose proof (fires_b_rule p) as Hb.
  destruct sentences_not_empty as (Hs1 & Hs2 & Hs3).
  destruct (fires_a p), (fires_b p);
    repeat split; intros;
    try reflexivity; try discriminate; try congruence;
    try (exfalso; intuition congruence);
    try (left; apply Ha; reflexivity);
    try (right; apply Hb; reflexivity).
  - assert (Hup : Spec.direction p = Some "up"%string)
      by (apply Ha; reflexivity).
    congruence.
  - assert (Hup : Spec.direction p = Some "up"%string)
      by (apply Ha; reflexivity).
    congruence.
  - assert (Hup : Spec.direction p = Some "up"%string)
      by (apply Hb; reflexivity).
    congruence.
Qed.

Lemma direction_growth_high_risk :
  Spec.direction growth_high_risk = Some "up"%string.
Proof.
  unfold Spec.direction, growth_high_risk. cbn.
  destruct (Req_dec_T 100 0); [lra|].
  unfold direction_of, Py.sum. cbn.
  match goal with
  | |- context [Rlt_dec 0 ?x] => destruct (Rlt_dec 0 x); [reflexivity | lra]
  end.
Qed.

Lemma consistency_explanation_witness :
  Payload.consistency_explanation (validate_and_adjust growth_high_risk)
  = Some (instability_sentence ++ " " ++ volatility_sentence)%string.
Proof.
  apply (consistency_explanation_iff_rule_fires growth_high_risk eq_refl).
  - split; [exact direction_growth_high_risk | reflexivity].
  - split; [|exact direction_growth_high_risk].
    exists (Finite 50). split; [reflexivity | simpl; lra].
Defined.

(** The guard of the division: with a last actual value of 0 the percent
    change is 0. *)
Lemma direction_pct_zero_last (preds : list R) :
  preds <> [] -> direction_pct preds (Some 0) = Some 0.
Proof.
  intro Hne. destruct preds as [|x l]; [congruence|].
  unfold direction_pct. destruct (Req_dec_T 0 0); [reflexivity|congruence].
Qed.

Lemma direction_of_zero : direction_of 0 = "flat"%string.
Proof.
  unfold direction_of. destruct (Rlt_dec 0 0); [lra | reflexivity].
Qed.

(** C10, as stated, fails in its last part.  With a last actual value of 0
    the direction is flat and no rule fires, but an explanation that the
    payload already carries is still in the output. *)
Lemma stale_explanation_survives_zero_last :
  Payload.predictions stale_zero_payload = Some [1]
  /\ Payload.last_actual stale_zero_payload = Some 0
  /\ Spec.direction stale_zero_payload = Some "flat"%string
  /\ Payload.consistency_explanation (validate_and_adjust stale_zero_payload)
     = Some "stale"%string.
Proof.
  assert (Hd : Spec.direction stale_zero_payload = Some "flat"%string).
  { unfold Spec.direction, stale_zero_payload. cbn [Payload.predictions
      Payload.last_actual].
    rewrite direction_pct_zero_last by discriminate.
    cbn [option_map]. rewrite direction_of_zero. reflexivity. }
  repeat split; try exact Hd.
  rewrite validate_and_adjust_explanation.
  unfold fires_a, fires_b. rewrite Hd. reflexivity.
Qed.

(** C10, amended.  For every payload with at least one prediction and a
    last actual value of exactly 0, the validator does not divide: it records
    a percent change of 0, the direction is flat, neither contradiction rule
    fires, and the consistency explanation of the output is the one of the
    payload, so it is absent whenever the payload did not already carry
    one. *)
Theorem zero_last_actual_is_flat (p : Payload.t) (preds : list R) :
  Payload.predictions p = Some preds ->
  preds <> [] ->
  Payload.last_actual p = Some 0 ->
  let out := validate_and_adjust p in
  direction_pct preds (Payload.last_actual p) = Some 0
  /\ Payload.forecast_direction_pct out = Some 0
  /\ Spec.direction p = Some "flat"%string
  /\ ~ Spec.rule_a p
  /\ ~ Spec.rule_b p
  /\ Payload.consistency_explanation out = Payload.consistency_explanation p
  /\ (Payload.consistency_explanation p = None ->
      Payload.consistency_explanation out = None).
Proof.
  intros Hpreds Hne Hlast out.
  assert (Hpct : direction_pct preds (Payload.last_actual p) = Some 0)
    by (rewrite Hlast; apply direction_pct_zero_last; exact Hne).
  assert (Hd : Spec.direction p = Some "flat"%string).
  { unfold Spec.direction. rewrite Hpreds, Hpct.
    cbn [option_map]. rewrite direction_of_zero. reflexivity. }
  assert (Hce : Payload.consistency_explanation out
                = Payload.consistency_explanation p).
  { unfold out. rewrite validate_and_adjust_explanation.
    unfold fires_a, fires_b. rewrite Hd.
    destruct (Payload.volatility_percent p) as [v|];
      [destruct (Py.gt v 40)|]; reflexivity. }
  split; [exact Hpct|]. split.
  - unfold out, validate_and_adjust. rewrite Hpreds, Hpct.
    cbn [option_map]. rewrite direction_of_zero.
    destruct (Payload.volatility_percent p) as [v|];
      [destruct (Py.gt v 40)|]; reflexivity.
  - split; [exact Hd|]. split; [|split; [|split]].
    + intros [H _]. congruence.
    + intros [_ H]. congruence.
    + exact Hce.
    + intro H. rewrite Hce. exact H.
Qed.

Lemma zero_last_actual_witness :
  Payload.forecast_direction_pct (validate_and_adjust zero_last_payload)
  = Some 0
  /\ Payload.consistency_explanation (validate_and_adjust zero_last_payload)
     = None.
Proof.
  pose proof (zero_last_actual_is_flat zero_last_payload [5; 7] eq_refl
                ltac:(discriminate) eq_refl) as H.
  cbv zeta in H. destruct H as (_ & Hpct & _ & _ & _ & _ & Habs).
  split; [exact Hpct | exact (Habs eq_refl)].
Defined.

End ValidatorProperties.

(* ================================================================= *)
(** ** Narrative selection *)

Section NarrativeProperties.
Import Py InsightsEngine Derived Examples.

Lemma below_iff (recent_short : option R) (c : R) :
  c <= 0 ->
  (below recent_short c = true
   <-> exists v, recent_short = Some v /\ v < c).
Proof.
  intro Hc. unfold below, Payload.truthy.
  destruct recent_short as [v|].
  - destruct (Req_dec_T v 0), (Rlt_dec v c); simpl; split; intro H;
      try discriminate; try reflexivity;
      try match type of H with
          | exists _, _ =>
              destruct H as [w [Hw Hlt]]; injection Hw as <-; lra
          end;
      exists v; split; [reflexivity | assumption].
  - split; [discriminate | intros [w [Hw _]]; discriminate].
Qed.

Lemma above_iff (recent_short : option R) (c : R) :
  0 <= c ->
  (above recent_short c = true
   <-> exists v, recent_short = Some v /\ c < v).
Proof.
  intro Hc. unfold above, Payload.truthy.
  destruct recent_short as [v|].
  - destruct (Req_dec_T v 0), (Rlt_dec c v); simpl; split; intro H;
      try discriminate; try reflexivity;
      try match type of H with
          | exists _, _ =>
              destruct H as [w [Hw Hlt]]; injection Hw as <-; lra
          end;
      exists v; split; [reflexivity | assumption].
  - split; [discriminate | intros [w [Hw _]]; discriminate].
Qed.

Lemma recommendation_of_unfold (p : Payload.t) :
  recommendation_of p
  = recommendation_section (Payload.risk_label p) (Payload.recent_short_pct p)
                           (reported_change p).
Proof. reflexivity. Qed.

Lemma thresholds_nonpositive : rec_decline_threshold <= 0.
Proof. unfold rec_decline_threshold. lra. Qed.

Lemma thresholds_nonnegative : 0 <= rec_growth_threshold.
Proof. unfold rec_growth_threshold. lra. Qed.

Lemma short_trend_below_iff (p : Payload.t) :
  below (Payload.recent_short_pct p) rec_decline_threshold = true
  <-> Spec.short_trend_below p (-0.10).
Proof. exact (below_iff _ _ thresholds_nonpositive). Qed.

Lemma short_trend_above_iff (p : Payload.t) :
  above (Payload.recent_short_pct p) rec_growth_threshold = true
  <-> Spec.short_trend_above p 0.10.
Proof. exact (above_iff _ _ thresholds_nonnegative). Qed.

Lemma not_true_false (b : bool) (P : Prop) :
  (b = true <-> P) -> ~ P -> b = false.
Proof.
  intros H Hn. destruct b; [|reflexivity].
  exfalso. apply Hn, H. reflexivity.
Qed.

Lemma below_not_above (p : Payload.t) :
  Spec.short_trend_above p 0.10 -> ~ Spec.short_trend_below p (-0.10).
Proof.
  intros [v [Hv Hgt]] [w [Hw Hlt]].
  rewrite Hv in Hw. injection Hw as <-. lra.
Qed.

(** The three rows of the table, as the code branches. *)
Lemma recommendation_high (recent_short : option R) (fc : R) :
  recommendation_section (Some "High"%string) recent_short fc
  = CriticalActionRequired.
Proof. reflexivity. Qed.

Lemma recommendation_medium (recent_short : option R) (fc : R) :
  recommendation_section (Some "Medium"%string) recent_short fc
  = if below recent_short rec_decline_threshold
    then DeclineCloseMonitoring fc
    else if above recent_short rec_growth_threshold
         then GrowthConstrainedByVolatility
         else ModerateMixedSignals.
Proof. reflexivity. Qed.

Lemma recommendation_low (recent_short : option R) (fc : R) :
  recommendation_section (Some "Low"%string) recent_short fc
  = if below recent_short rec_decline_threshold
    then ControlledDecline fc
    else StrongOperationalStability.
Proof. reflexivity. Qed.

(** A trend from -15% (included) to -10% (excluded) is neutral for the
    trend summary and a decline for the recommendation. *)
Lemma thresholds_separate (v w avg fc : R) (last : option R) :
  -0.15 <= v < -0.10 ->
  (exists x : R,
      trend_section (Some v) (Some w) (Some avg) last = ModestMovement x)
  /\ recommendation_section (Some "Low"%string) (Some v) fc
     = ControlledDecline fc.
Proof.
  intro Hv. split.
  - unfold trend_section, summary_decline_threshold, summary_growth_threshold.
    destruct (Rlt_dec v (-0.15)); [lra|].
    destruct (Rlt_dec 0.10 v); [lra|]. eexists. reflexivity.
  - rewrite recommendation_low.
    assert (Hb : below (Some v) rec_decline_threshold = true).
    { apply (below_iff _ _ thresholds_nonpositive). exists v.
      unfold rec_decline_threshold. split; [reflexivity | lra]. }
    rewrite Hb. reflexivity.
Qed.

(** C6.  The recommendation is selected by the risk label and the
    short-term trend: High gives the critical-action (cash preservation)
    bullet whatever the trend; Medium gives the close-monitoring bullet for a
    trend below -10%, the growth-constrained-by-volatility bullet for a trend
    above +10% and the mixed-signals bullet otherwise; Low gives the
    controlled-decline bullet for a trend below -10% and the
    operational-stability (growth investment) bullet otherwise.  The -10% of
    the recommendation is another constant than the -15% and +10% of the
    trend summary: a trend between -15% and -10% has the neutral summary and
    the decline recommendation. *)
Theorem recommendation_decision_table (p : Payload.t) :
  (Payload.risk_label p = Some "High"%string ->
   recommendation_of p = CriticalActionRequired)
  /\ (Payload.risk_label p = Some "Medium"%string ->
      Spec.short_trend_below p (-0.10) ->
      recommendation_of p = DeclineCloseMonitoring (reported_change p))
  /\ (Payload.risk_label p = Some "Medium"%string ->
      Spec.short_trend_above p 0.10 ->
      recommendation_of p = GrowthConstrainedByVolatility)
  /\ (Payload.risk_label p = Some "Medium"%string ->
      ~ Spec.short_trend_below p (-0.10) ->
      ~ Spec.short_trend_above p 0.10 ->
      recommendation_of p = ModerateMixedSignals)
  /\ (Payload.risk_label p = Some "Low"%string ->
      Spec.short_trend_below p (-0.10) ->
      recommendation_of p = ControlledDecline (reported_change p))
  /\ (Payload.risk_label p = Some "Low"%string ->
      ~ Spec.short_trend_below p (-0.10) ->
      recommendation_of p = StrongOperationalStability)
  /\ (rec_decline_threshold = -0.10
      /\ summary_decline_threshold = -0.15
      /\ summary_growth_threshold = 0.10
      /\ rec_decline_threshold <> summary_decline_threshold
      /\ rec_decline_threshold <> summary_growth_threshold)
  /\ (forall (v w avg fc : R) (last : option R),
         -0.15 <= v < -0.10 ->
         (exists x : R,
             trend_section (Some v) (Some w) (Some avg) last = ModestMovement x)
         /\ recommendation_section (Some "Low"%string) (Some v) fc
            = ControlledDecline fc).
Proof.
  rewrite recommendation_of_unfold.
  pose proof (short_trend_below_iff p) as Hbelow.
  pose proof (short_trend_above_iff p) as Habove.
  split; [|split; [|split; [|split; [|split; [|split; [|split]]]]]].
  - intros ->. apply recommendation_high.
  - intros -> Hb. rewrite recommendation_medium.
    apply Hbelow in Hb. rewrite Hb. reflexivity.
  - intros -> Ha. rewrite recommendation_medium.
    rewrite (not_true_false _ _ Hbelow (below_not_above p Ha)).
    apply Habove in Ha. rewrite Ha. reflexivity.
  - intros -> Hnb Hna. rewrite recommendation_medium.
    rewrite (not_true_false _ _ Hbelow Hnb), (not_true_false _ _ Habove Hna).
    reflexivity.
  - intros -> Hb. rewrite recommendation_low.
    apply Hbelow in Hb. rewrite Hb. reflexivity.
  - intros -> Hnb. rewrite recommendation_low.
    rewrite (not_true_false _ _ Hbelow Hnb). reflexivity.
  - unfold rec_decline_threshold, summary_decline_threshold,
      summary_growth_threshold.
    repeat split; lra.
  - exact thresholds_separate.
Qed.

Lemma recommendation_decision_table_witness :
  recommendation_of orderly_decline
  = ControlledDecline (reported_change orderly_decline).
Proof.
  destruct (recommendation_decision_table orderly_decline)
    as (_ & _ & _ & _ & Hlow & _).
  apply Hlow.
  - reflexivity.
  - exists (-0.12). split; [reflexivity | lra].
Defined.

End NarrativeProperties.

(* ================================================================= *)
(** ** Series preparation *)

Section PreparationProperties.
Import Py Preprocessing Derived Examples.

Lemma ts_eqb_eq (a b : Timestamp) : ts_eqb a b = true -> a = b.
Proof.
  destruct a as [ya ma da na], b as [yb mb db nb].
  unfold ts_eqb. cbn [year month day nanos].
  rewrite !andb_true_iff.
  intros [[[Hy Hm] Hd] Hn].
  apply Z.eqb_eq in Hy. apply Nat.eqb_eq in Hm, Hd, Hn.
  subst. reflexivity.
Qed.

Lemma ts_ltb_iff (a b : Timestamp) :
  ts_ltb a b = true
  <-> (year a < year b)%Z
      \/ (year a = year b
          /\ ((month a < month b)%nat
              \/ (month a = month b
                  /\ ((day a < day b)%nat
                      \/ (day a = day b /\ (nanos a < nanos b)%nat))))).
Proof.
  unfold ts_ltb.
  repeat (rewrite orb_true_iff || rewrite andb_true_iff).
  rewrite Z.ltb_lt, Z.eqb_eq, !Nat.ltb_lt, !Nat.eqb_eq.
  reflexivity.
Qed.

Lemma ts_ltb_false (a b : Timestamp) :
  earlier a b -> ts_ltb b a = false /\ ts_eqb b a = false.
Proof.
  intro H. apply ts_ltb_iff in H. split.
  - destruct (ts_ltb b a) eqn:E; [|reflexivity].
    apply ts_ltb_iff in E. lia.
  - destruct (ts_eqb b a) eqn:E; [|reflexivity].
    apply ts_eqb_eq in E. subst. lia.
Qed.

Lemma earlier_trans (a b c : Timestamp) :
  earlier a b -> earlier b c -> earlier a c.
Proof.
  unfold earlier. rewrite !ts_ltb_iff. lia.
Qed.

Lemma period_ltb_earlier (a b : Timestamp) :
  period_ltb (to_period a) (to_period b) = true -> earlier a b.
Proof.
  unfold period_ltb, to_period, earlier. cbn [fst snd].
  rewrite ts_ltb_iff, orb_true_iff, andb_true_iff.
  rewrite Z.ltb_lt, Z.eqb_eq, Nat.ltb_lt. lia.
Qed.

Lemma ascending_chronological (keys : list Timestamp) :
  ascending (map to_period keys) = true -> chronological keys.
Proof.
  induction keys as [|k rest IH]; intro H.
  - exact I.
  - destruct rest as [|k' rest'].
    + split; [constructor | exact I].
    + change (period_ltb (to_period k) (to_period k')
              && ascending (map to_period (k' :: rest')) = true) in H.
      apply andb_true_iff in H. destruct H as [Hlt Hrest].
      destruct (IH Hrest) as [Hall Hchr].
      split; [|exact (conj Hall Hchr)].
      apply period_ltb_earlier in Hlt.
      constructor; [exact Hlt|].
      eapply Forall_impl; [|exact Hall].
      intros c Hc. exact (earlier_trans k k' c Hlt Hc).
Qed.

Lemma chronological_app (l1 l2 : list Timestamp) (k : Timestamp) :
  chronological (l1 ++ k :: l2) -> Forall (fun c => earlier c k) l1.
Proof.
  induction l1 as [|c l1 IH]; intro H.
  - constructor.
  - destruct H as [Hall Hrest]. constructor.
    + rewrite Forall_forall in Hall. apply Hall.
      apply in_or_app. right. left. reflexivity.
    + apply IH. exact Hrest.
Qed.

(** A row later than every group opens a new group after them. *)
Lemma group_add_last (k : Timestamp) (v : R) (groups : MonthlySeries) :
  Forall (fun c => earlier c k) (map fst groups) ->
  group_add k (Some v) groups = groups ++ [(k, v)].
Proof.
  induction groups as [|[k' acc] rest IH]; intro H.
  - cbn. rewrite Rplus_0_l. reflexivity.
  - inversion H as [|? ? Hk Hrest]; subst.
    destruct (ts_ltb_false k' k Hk) as [Hlt Heq].
    cbn [group_add]. cbn [fst] in Hlt, Heq. rewrite Hlt, Heq.
    rewrite (IH Hrest). reflexivity.
Qed.

Lemma groupby_sum_chronological (rows groups : MonthlySeries) :
  chronological (map fst (groups ++ rows)) ->
  fold_left (fun g row => group_add (fst row) (snd row) g)
            (map (fun r => (fst r, Some (snd r))) rows) groups
  = groups ++ rows.
Proof.
  revert groups. induction rows as [|[k v] rows IH]; intros groups H.
  - rewrite app_nil_r. reflexivity.
  - cbn [map fold_left fst snd].
    rewrite group_add_last.
    + rewrite IH; rewrite <- app_assoc; [reflexivity | exact H].
    + rewrite map_app in H. exact (chronological_app _ _ _ H).
Qed.

Lemma sort_index_chronological (s : MonthlySeries) :
  chronological (map fst s) -> sort_index s = s.
Proof.
  induction s as [|[k v] rest IH]; intro H.
  - reflexivity.
  - destruct H as [Hall Hrest].
    change (sort_index ((k, v) :: rest))
      with (sort_insert (k, v) (sort_index rest)).
    rewrite (IH Hrest).
    destruct rest as [|[k' v'] rest']; [reflexivity|].
    inversion Hall as [|? ? Hk _]; subst.
    cbn [sort_insert fst]. unfold earlier in Hk. cbn [fst] in Hk.
    rewrite Hk. reflexivity.
Qed.

Lemma month_ends_fixed (s : MonthlySeries) :
  month_ends s = true -> map month_end (map fst s) = map fst s.
Proof.
  unfold month_ends. induction s as [|[k v] rest IH]; intro H.
  - reflexivity.
  - cbn [forallb fst] in H. apply andb_true_iff in H.
    destruct H as [Hk Hrest].
    cbn [map fst]. rewrite (ts_eqb_eq _ _ Hk), (IH Hrest). reflexivity.
Qed.

Lemma combine_index_values (s : MonthlySeries) :
  combine (map fst s) (map (fun r => Some (snd r)) s)
  = map (fun r => (fst r, Some (snd r))) s.
Proof.
  induction s as [|[k v] rest IH]; [reflexivity|].
  cbn [map combine fst snd]. rewrite IH. reflexivity.
Qed.

(** C9.  Normalization is idempotent: for a monthly series that is already
    normalized (its index entries are month-end timestamps of months that
    strictly ascend, so no month occurs twice), [prepare_series] on the
    table of the series gives back the same series: the same index in the
    same order with the same values. *)
Theorem prepare_series_idempotent (s : MonthlySeries) :
  normalized s = true ->
  prepare_series (to_frame s) "date" "revenue" = Ok s.
Proof.
  intro H. unfold normalized in H. apply andb_true_iff in H.
  destruct H as [Hends Hasc].
  assert (Hchr : chronological (map fst s)).
  { apply ascending_chronological. rewrite map_map. exact Hasc. }
  unfold prepare_series.
  change (negb (mem "date" (columns (to_frame s)))
          || negb (mem "revenue" (columns (to_frame s)))) with false.
  cbv iota.
  change (datetimes (to_frame s) "date") with (map fst s).
  change (floats (to_frame s) "revenue")
    with (map (fun r : Timestamp * R => Some (snd r)) s).
  rewrite (month_ends_fixed s Hends), combine_index_values.
  unfold groupby_sum.
  rewrite (groupby_sum_chronological s [] Hchr).
  cbn [app]. rewrite (sort_index_chronological s Hchr). reflexivity.
Qed.

Lemma prepare_series_idempotent_witness :
  prepare_series (to_frame two_months) "date" "revenue" = Ok two_months.
Proof.
  apply (prepare_series_idempotent two_months). reflexivity.
Defined.

End PreparationProperties.

(* ================================================================= *)
(** * The rest of the analytics core *)

(* ================================================================= *)
(** ** backend/prediction.py: the signals of the pipeline *)

Module Prediction.
Import Py.

(** [s.iloc[-k]] of a series with at least [k] values. *)
Definition iloc_from_end (k : nat) (s : list R) : R :=
  nth (length s - k) s 0.

(** [recent_short]: the change over the last two months, line 59. *)
Definition recent_short (s : list R) : R :=
  if (3 <=? length s)%nat then
    if Req_dec_T (iloc_from_end 3 s) 0 then 0
    else (iloc_from_end 1 s - iloc_from_end 3 s) / iloc_from_end 3 s
  else 0.

(** [recent_long]: the change over the last five months, line 60; the
    short-term change stands in for it on a shorter history. *)
Definition recent_long (s : list R) : R :=
  if (6 <=? length s)%nat then
    if Req_dec_T (iloc_from_end 6 s) 0 then recent_short s
    else (iloc_from_end 1 s - iloc_from_end 6 s) / iloc_from_end 6 s
  else recent_short s.

(** [stability_index]: [max(0.0, min(100.0, 100.0 - vol))], line 63.  For
    the infinite volatility [100.0 - vol] is the negative infinity, which
    the minimum keeps and the maximum replaces by 0. *)
Definition stability_index (vol : pyfloat) : R :=
  match vol with
  | Finite v => Py.max 0 (Py.min 100 (100 - v))
  | Inf => 0
  end.

End Prediction.

(* ================================================================= *)
(** ** Notions used by the further properties *)

Module Terms.
Import Py Pandas RiskAnalysis Forecasting Preprocessing.

(** Raw predictions that stay within the caps of the safety loop, each one
    relative to the one before it and the first one relative to [prev]. *)
Fixpoint gentle (recent_pct m prev : R) (raw : list R) : Prop :=
  match raw with
  | [] => True
  | p :: rest =>
      let allowed := Py.max (Rabs recent_pct * m) floor in
      prev * (1 - allowed * m) <= p <= prev * (1 + allowed)
      /\ gentle recent_pct m p rest
  end.

(** Rows of numbers as rows of floats. *)
Definition finite_rows (rows : list (R * (R * R)))
    : list (float * (float * float)) :=
  map (fun r => (Some (fst r), (Some (fst (snd r)), Some (snd (snd r))))) rows.

(** The confidence interval of an adjusted row lies inside the interval of
    the raw row. *)
Definition narrows (raw adjusted : R * (R * R)) : Prop :=
  fst (snd raw) <= fst (snd adjusted) /\ snd (snd adjusted) <= snd (snd raw).

(** A series whose [n] values lie on the line [a + b * i]. *)
Definition on_line (a b : R) (n : nat) : series :=
  map Some (map (fun t => a + b * t) (arange n)).

(** The rows that [prepare_series] groups. *)
Definition rows_of (df : DataFrame) (date_col value_col : string)
    : list (Timestamp * float) :=
  combine (map month_end (datetimes df date_col)) (floats df value_col).

End Terms.

Module Narrative.
Import InsightsEngine.

(** The predictions of a payload, as [build_insight] reads them. *)
Definition predictions_of (p : Payload.t) : list R :=
  match Payload.predictions p with
  | Some l => l
  | None => []
  end.

(** The trend summary of a payload and the percent that it reports. *)
Definition summary_of (p : Payload.t) : trend_summary :=
  trend (build_insight p).

Definition summary_change (p : Payload.t) : option R :=
  match summary_of p with
  | DownwardTrend x | UpwardTrajectory x | ModestMovement x => Some x
  | TrendInsufficientData => None
  end.

(** The percent change from the last actual value to the average
    prediction. *)
Definition change_pct (p : Payload.t) (last : R) : R :=
  (Py.sum (predictions_of p) / INR (length (predictions_of p)) - last)
  / last * 100.

(** A payload that has what the trend summary needs. *)
Definition has_trend_data (p : Payload.t) : Prop :=
  Payload.recent_short_pct p <> None
  /\ Payload.recent_long_pct p <> None
  /\ predictions_of p <> [].

End Narrative.

Module MoreExamples.
Import Py Pandas Forecasting Preprocessing Prediction.

(** A fit that reproduces the history and forecasts 101 at every step. *)
Definition steady_fit : ExponentialSmoothing :=
  fun s _ _ _ _ =>
    {| fittedvalues := s; forecast := fun n => repeat (Some 101) n |}.

(** Three months at 100. *)
Definition steady_series : series := [Some 100; Some 100; Some 100].

(** Three sales in two months, out of order: 10 and 20 February, 15
    January 2024. *)
Definition three_sales : DataFrame :=
  {| columns := ["date"; "revenue"]%string;
     datetimes := fun c =>
       if String.eqb c "date"
       then [mkTimestamp 2024 2 10 0; mkTimestamp 2024 1 15 0;
             mkTimestamp 2024 2 20 0]
       else [];
     floats := fun c =>
       if String.eqb c "revenue" then [Some 5; Some 3; Some 7] else [] |}.

(** What [prepare_series] makes of them. *)
Definition three_sales_monthly : MonthlySeries :=
  [(mkTimestamp 2024 1 31 0, 0 + 3); (mkTimestamp 2024 2 29 0, 0 + 5 + 7)].

(** The three sales in chronological order. *)
Definition three_sales_sorted : DataFrame :=
  {| columns := ["date"; "revenue"]%string;
     datetimes := fun c =>
       if String.eqb c "date"
       then [mkTimestamp 2024 1 15 0; mkTimestamp 2024 2 10 0;
             mkTimestamp 2024 2 20 0]
       else [];
     floats := fun c =>
       if String.eqb c "revenue" then [Some 3; Some 5; Some 7] else [] |}.

(** Two sales in two months, out of order and in order. *)
Definition two_sales : DataFrame :=
  {| columns := ["date"; "revenue"]%string;
     datetimes := fun c =>
       if String.eqb c "date"
       then [mkTimestamp 2024 2 10 0; mkTimestamp 2024 1 15 0]
       else [];
     floats := fun c =>
       if String.eqb c "revenue" then [Some 5; Some 3] else [] |}.

Definition two_sales_sorted : DataFrame :=
  {| columns := ["date"; "revenue"]%string;
     datetimes := fun c =>
       if String.eqb c "date"
       then [mkTimestamp 2024 1 15 0; mkTimestamp 2024 2 10 0]
       else [];
     floats := fun c =>
       if String.eqb c "revenue" then [Some 3; Some 5] else [] |}.

(** Three months of falling sales and a Low-risk payload built on them. *)
Definition falling_sales : list R := [100; 95; 88].

Definition falling_low_risk : Payload.t :=
  Payload.mk (Some [85]) None None (Some (Finite 5)) None (Some 12) None
             (Some 10) (Some "Low"%string) (Some 88)
             (Some (recent_short falling_sales))
             (Some (recent_long falling_sales)) (Some 95) None None None.

End MoreExamples.

(* ================================================================= *)
(** ** Further properties of the risk signals *)

Section RiskSignalProperties.
Import Py Pandas RiskAnalysis Terms.

Lemma fold_max_ge_acc (l : list R) (a : R) : a <= fold_left Py.max l a.
Proof.
  revert a. induction l as [|x l IH]; intro a; simpl.
  - lra.
  - apply Rle_trans with (Py.max a x); [|apply IH].
    unfold Py.max. destruct (Rlt_dec a x); lra.
Qed.

Lemma fold_max_ge_in (l : list R) (a x : R) :
  In x l -> x <= fold_left Py.max l a.
Proof.
  revert a. induction l as [|y l IH]; intros a Hin; simpl.
  - contradiction.
  - destruct Hin as [->|Hin].
    + apply Rle_trans with (Py.max a x); [|apply fold_max_ge_acc].
      unfold Py.max. destruct (Rlt_dec a x); lra.
    + apply IH. exact Hin.
Qed.

(** The peak is at least every value of the series. *)
Lemma maximum_ge (l : list R) (x : R) : In x l -> x <= maximum l.
Proof.
  destruct l as [|y l]; [contradiction|].
  intros [->|Hin]; unfold maximum.
  - apply fold_max_ge_acc.
  - apply fold_max_ge_in. exact Hin.
Qed.

Lemma last_in (l : list R) (d : R) : l <> [] -> In (last l d) l.
Proof.
  induction l as [|x l IH]; intro H; [congruence|].
  destruct l as [|y l]; [left; reflexivity|].
  right. apply IH. discriminate.
Qed.


(** Drawdown of a series with no negative value: a percent from 0 to 100. *)
Theorem drawdown_between_0_and_100 (s : series) :
  (forall x, In x (dropna s) -> 0 <= x) ->
  0 <= peak_to_current_drawdown s <= 100.
Proof.
  intro Hpos. unfold peak_to_current_drawdown.
  destruct (dropna s) as [|x l] eqn:E; [lra|].
  set (peak := maximum (x :: l)). set (current := iloc_last (x :: l) 0).
  destruct (Req_dec_T peak 0) as [|Hnz]; [lra|].
  assert (Hin : In current (x :: l)) by (apply last_in; discriminate).
  assert (Hcp : current <= peak) by (apply maximum_ge; exact Hin).
  assert (Hc0 : 0 <= current) by (apply Hpos; exact Hin).
  assert (Hp : 0 < peak) by lra.
  assert (Hi : 0 < / peak) by (apply Rinv_0_lt_compat; exact Hp).
  assert (Hone : peak * / peak = 1) by (apply Rinv_r; lra).
  unfold Rdiv. split; nra.
Qed.

Lemma drawdown_between_0_and_100_witness :
  0 <= peak_to_current_drawdown [Some 5; None; Some 3] <= 100.
Proof.
  apply drawdown_between_0_and_100.
  intros x Hx. cbn in Hx. destruct Hx as [<-|[<-|[]]]; lra.
Defined.

Lemma sum_app (l1 l2 : list R) : Py.sum (l1 ++ l2) = Py.sum l1 + Py.sum l2.
Proof.
  induction l1 as [|x l1 IH]; simpl.
  - rewrite sum_nil. lra.
  - rewrite !sum_cons, IH. lra.
Qed.

Lemma sum_map_line (a b : R) (x : list R) :
  Py.sum (map (fun t => a + b * t) x) = INR (length x) * a + b * Py.sum x.
Proof.
  induction x as [|t x IH].
  - unfold Py.sum. simpl. lra.
  - change (length (t :: x)) with (S (length x)). rewrite S_INR.
    cbn [map]. rewrite !sum_cons, IH. lra.
Qed.

Lemma sum_products_line (a b : R) (x : list R) :
  Py.sum (map (fun p => fst p * snd p) (combine x (map (fun t => a + b * t) x)))
  = a * Py.sum x + b * Py.sum (map (fun t => t * t) x).
Proof.
  induction x as [|t x IH].
  - unfold Py.sum. simpl. lra.
  - cbn [map combine fst snd]. rewrite !sum_cons, IH. lra.
Qed.

(** Least squares through points that lie on a line gives the slope of the
    line, as soon as the abscissas are not all equal. *)
Lemma lstsq_slope_line (a b : R) (x : list R) :
  INR (length x) * Py.sum (map (fun t => t * t) x) - Py.sum x * Py.sum x <> 0 ->
  lstsq_slope x (map (fun t => a + b * t) x) = b.
Proof.
  intro Hden. unfold lstsq_slope.
  destruct (Req_dec_T _ 0) as [H0|_]; [contradiction|].
  rewrite sum_map_line, sum_products_line. field. exact Hden.
Qed.

Lemma arange_S (n : nat) : arange (S n) = arange n ++ [INR n].
Proof.
  unfold arange. rewrite seq_S, map_app. reflexivity.
Qed.

Lemma length_arange (n : nat) : length (arange n) = n.
Proof. unfold arange. rewrite length_map, length_seq. reflexivity. Qed.

Lemma sum_arange (n : nat) : 2 * Py.sum (arange n) = INR n * (INR n - 1).
Proof.
  induction n as [|n IH].
  - unfold Py.sum. simpl. lra.
  - rewrite arange_S, sum_app, sum_cons, sum_nil, S_INR. nra.
Qed.

Lemma sum_squares_arange (n : nat) :
  6 * Py.sum (map (fun t => t * t) (arange n))
  = (INR n - 1) * INR n * (2 * INR n - 1).
Proof.
  induction n as [|n IH].
  - unfold Py.sum. simpl. lra.
  - rewrite arange_S, map_app, sum_app. cbn [map].
    rewrite sum_cons, sum_nil, S_INR. nra.
Qed.

(** From two points on, the abscissas 0, 1, 2, ... determine the line. *)
Lemma arange_determines_slope (n : nat) :
  (2 <= n)%nat ->
  INR (length (arange n)) * Py.sum (map (fun t => t * t) (arange n))
  - Py.sum (arange n) * Py.sum (arange n) <> 0.
Proof.
  intro Hn. rewrite length_arange.
  pose proof (sum_arange n) as H1. pose proof (sum_squares_arange n) as H2.
  assert (HN : 2 <= INR n) by (apply (le_INR 2); exact Hn).
  set (N := INR n) in *.
  set (S1 := Py.sum (arange n)) in *.
  set (S2 := Py.sum (map (fun t => t * t) (arange n))) in *.
  assert (H12 : 12 * (N * S2 - S1 * S1) = N * N * (N - 1) * (N + 1)).
  { replace (12 * (N * S2 - S1 * S1))
      with (2 * N * (6 * S2) - 3 * (2 * S1) * (2 * S1)) by ring.
    rewrite H1, H2. ring. }
  assert (Hpos : 0 < N * N * (N - 1) * (N + 1)).
  { apply Rmult_lt_0_compat; [|lra].
    apply Rmult_lt_0_compat; [|lra].
    apply Rmult_lt_0_compat; lra. }
  lra.
Qed.

(** The last [k] of [n] points on a line are [k] points on a line of the
    same slope. *)
Lemma seq_from (m k : nat) : seq m k = map (Nat.add m) (seq 0 k).
Proof.
  revert m. induction k as [|k IH]; intro m; [reflexivity|].
  cbn [seq map]. f_equal; [lia|].
  rewrite (IH (S m)), <- seq_shift, map_map.
  apply map_ext. intro i. lia.
Qed.

Lemma last_points_of_line (a b : R) (n k : nat) :
  (1 <= k <= n)%nat ->
  iloc_last_n k (map (fun t => a + b * t) (arange n))
  = map (fun t => (a + b * INR (n - k)) + b * t) (arange k).
Proof.
  intros [Hk Hn]. destruct k as [|k]; [lia|].
  unfold iloc_last_n, arange.
  rewrite !length_map, length_seq, !skipn_map, skipn_seq.
  replace (n - (n - S k))%nat with (S k) by lia.
  rewrite (seq_from (0 + (n - S k)) (S k)), !map_map.
  apply map_ext. intro i. rewrite plus_INR. simpl (0 + _)%nat. lra.
Qed.

Lemma dropna_present (l : list R) : dropna (map Some l) = l.
Proof.
  induction l as [|x l IH]; [reflexivity|]. simpl. rewrite IH. reflexivity.
Qed.

(** Momentum of a series on a line: the slope of the line as a percent of
    the mean of the window, whatever the window (of at least two points). *)
Theorem momentum_of_linear_series (a b : R) (n months : nat) :
  (2 <= n)%nat ->
  (1 <= months)%nat ->
  let recent :=
    iloc_last_n (Nat.min months (n - 1) + 1) (dropna (on_line a b n)) in
  mean recent <> 0 ->
  momentum_score (on_line a b n) months = b / mean recent * 100.
Proof.
  intros Hn Hm recent Hmean. subst recent.
  unfold momentum_score, on_line in *. rewrite dropna_present in *.
  rewrite length_map, length_arange.
  assert (Hlt : (n <? 2)%nat = false) by (apply Nat.ltb_ge; exact Hn).
  rewrite Hlt.
  set (k := (Nat.min months (n - 1) + 1)%nat) in *.
  assert (Hk : (2 <= k <= n)%nat) by (unfold k; lia).
  rewrite (last_points_of_line a b n k) in * by lia.
  rewrite length_map, length_arange.
  rewrite lstsq_slope_line
    by (apply arange_determines_slope; lia).
  destruct (Req_dec_T _ 0) as [H0|_]; [contradiction|]. reflexivity.
Qed.

Lemma momentum_of_linear_series_witness :
  momentum_score (on_line 100 10 3) 3
  = 10 / mean (iloc_last_n (Nat.min 3 (3 - 1) + 1)
                           (dropna (on_line 100 10 3))) * 100.
Proof.
  apply (momentum_of_linear_series 100 10 3 3); [lia | lia |].
  unfold on_line, mean, Py.sum. cbn. lra.
Defined.

Lemma repeat_as_line (c : R) (x : list R) :
  repeat c (length x) = map (fun t => c + 0 * t) x.
Proof.
  induction x as [|t x IH]; [reflexivity|].
  cbn [length repeat map]. rewrite IH. f_equal. lra.
Qed.

Lemma lstsq_slope_constant (c : R) (x : list R) :
  lstsq_slope x (repeat c (length x)) = 0.
Proof.
  rewrite repeat_as_line.
  destruct (Req_dec_T
              (INR (length x) * Py.sum (map (fun t => t * t) x)
               - Py.sum x * Py.sum x) 0) as [H0|Hden].
  - unfold lstsq_slope. destruct (Req_dec_T _ 0); [reflexivity|contradiction].
  - apply lstsq_slope_line. exact Hden.
Qed.

(** Momentum of a constant series is 0. *)
Lemma momentum_score_constant (c : R) (s : series) (months : nat) :
  Spec.constant c s -> momentum_score s months = 0.
Proof.
  intro Hc. unfold momentum_score.
  destruct (length (dropna s) <? 2)%nat; [reflexivity|].
  set (recent := iloc_last_n _ (dropna s)).
  assert (Hall : forall y, In y recent -> y = c).
  { intros y Hy. apply Hc. exact (iloc_last_n_incl _ _ y Hy). }
  pose proof (lstsq_slope_constant c (arange (length recent))) as Hslope.
  rewrite length_arange, <- (all_equal_repeat c recent Hall) in Hslope.
  rewrite Hslope.
  destruct (Req_dec_T _ 0); [reflexivity|]. unfold Rdiv. ring.
Qed.

Lemma constant_nondecreasing (c : R) (l : list R) :
  (forall x, In x l -> x = c) -> Spec.nondecreasing l.
Proof.
  induction l as [|x l IH]; intro H; [exact I|].
  destruct l as [|y l]; [exact I|]. split.
  - rewrite (H x), (H y); [lra | right; left; reflexivity | left; reflexivity].
  - apply IH. intros z Hz. apply H. right. exact Hz.
Qed.

Lemma blend_of_infinite_volatility :
  Py.max 0 (Py.min 100
              (0.4 * min_cap Inf 100
               + 0.3 * Py.min (Rabs (- Py.min 0 0)) 100 + 0.3 * Py.min 0 100))
  = 40.
Proof.
  rewrite py_max_Rmax, !py_min_Rmin. cbn [min_cap].
  assert (E0 : Rmin 0 0 = 0) by (unfold Rmin; destruct (Rle_dec 0 0); lra).
  assert (E1 : Rmin 0 100 = 0) by (unfold Rmin; destruct (Rle_dec 0 100); lra).
  rewrite E0, Ropp_0, Rabs_R0, E1.
  replace (0.4 * 100 + 0.3 * 0 + 0.3 * 0) with 40 by lra.
  assert (E2 : Rmin 100 40 = 40) by (unfold Rmin; destruct (Rle_dec 100 40); lra).
  rewrite E2. unfold Rmax. destruct (Rle_dec 0 40); lra.
Qed.

(** Score of a history of zeros.  A series whose values are all zero, and
    that has one at least, has a zero mean, hence the infinite volatility,
    which the score caps at 100; it has no drawdown and no momentum.  Its
    composite score is exactly 40 and its label Medium. *)
Theorem score_of_zero_series (s : series) :
  Spec.constant 0 s ->
  dropna s <> [] ->
  volatility_percent s 12 = Inf
  /\ composite_risk_score s = 40
  /\ classify_score (composite_risk_score s) = "Medium"%string.
Proof.
  intros Hc Hne.
  assert (Hvol : volatility_percent s 12 = Inf)
    by (apply volatility_percent_constant_zero; assumption).
  assert (Hmom : momentum_score s 6 = 0)
    by (apply (momentum_score_constant 0); exact Hc).
  assert (Hdraw : peak_to_current_drawdown s = 0)
    by (apply drawdown_nondecreasing, (constant_nondecreasing 0); exact Hc).
  assert (Hs : composite_risk_score s = 40).
  { unfold composite_risk_score. rewrite Hvol, Hmom, Hdraw.
    apply blend_of_infinite_volatility. }
  split; [exact Hvol|]. split; [exact Hs|].
  rewrite Hs. apply classify_score_medium. lra.
Qed.

Lemma score_of_zero_series_witness :
  volatility_percent [Some 0; None; Some 0] 12 = Inf
  /\ composite_risk_score [Some 0; None; Some 0] = 40
  /\ classify_score (composite_risk_score [Some 0; None; Some 0])
     = "Medium"%string.
Proof.
  apply score_of_zero_series.
  - intros x Hx. cbn in Hx. intuition congruence.
  - discriminate.
Defined.





End RiskSignalProperties.

(* ================================================================= *)
(** ** Further properties of the forecaster *)

Section ForecasterProperties.
Import Py Pandas Forecasting Derived Examples Terms MoreExamples.

Lemma length_safety_loop (recent_pct m : R) (rows : list (float * (float * float))) :
  forall prev : float,
    length (safety_loop recent_pct m prev rows) = length rows.
Proof.
  induction rows as [|[p [l u]] rows IH]; intro prev; [reflexivity|].
  cbn [safety_loop length]. rewrite IH. reflexivity.
Qed.

(** The three sequences of a result have the same length; it is the number
    of steps asked for whenever the fit forecasts that many values. *)
Theorem forecast_lengths
    (fit : ExponentialSmoothing) (s : series) (steps seasonal_periods : nat)
    (use_seasonal : bool) (max_growth_multiplier : R) (r : ForecastResult) :
  ets_recursive_forecast fit s steps seasonal_periods use_seasonal
                         max_growth_multiplier = Ok r ->
  length (lower r) = length (predictions r)
  /\ length (upper r) = length (predictions r)
  /\ ((forall s' trend seasonal periods init,
          length (forecast (fit s' trend seasonal periods init) steps) = steps) ->
      length (predictions r) = steps).
Proof.
  unfold ets_recursive_forecast. destruct s as [|x s']; [discriminate|].
  destruct (length (dropna (x :: s')) <? 3)%nat; intro H; injection H as <-.
  - cbn [predictions lower upper]. rewrite !repeat_length. auto.
  - cbn [predictions lower upper].
    rewrite !length_map, length_safety_loop.
    repeat split. intro Hfit.
    rewrite !length_combine, !length_map, !length_combine, !length_map, Hfit.
    lia.
Qed.

Lemma forecast_lengths_witness :
  length (lower (flat_result [Some 5; Some 7] 4))
  = length (predictions (flat_result [Some 5; Some 7] 4))
  /\ length (upper (flat_result [Some 5; Some 7] 4))
     = length (predictions (flat_result [Some 5; Some 7] 4))
  /\ ((forall s' trend seasonal periods init,
          length (forecast (flat_fit s' trend seasonal periods init) 4) = 4%nat) ->
      length (predictions (flat_result [Some 5; Some 7] 4)) = 4%nat).
Proof.
  apply (forecast_lengths flat_fit [Some 5; Some 7] 4 12 true 3).
  reflexivity.
Defined.

(** A history shorter than two seasons is fitted without a seasonal
    component: asking for one changes nothing. *)
Theorem short_history_has_no_season
    (fit : ExponentialSmoothing) (s : series) (steps seasonal_periods : nat)
    (max_growth_multiplier : R) :
  (length s < 2 * seasonal_periods)%nat ->
  ets_recursive_forecast fit s steps seasonal_periods true
                         max_growth_multiplier
  = ets_recursive_forecast fit s steps seasonal_periods false
                           max_growth_multiplier.
Proof.
  intro Hshort. unfold ets_recursive_forecast.
  assert (E : (2 * seasonal_periods <=? length s)%nat = false)
    by (apply Nat.leb_gt; exact Hshort).
  rewrite E. reflexivity.
Qed.

Lemma short_history_has_no_season_witness :
  ets_recursive_forecast flat_fit negative_series 2 12 true 3
  = ets_recursive_forecast flat_fit negative_series 2 12 false 3.
Proof.
  apply short_history_has_no_season. simpl. lia.
Defined.

Lemma safety_loop_gentle (recent_pct m : R) (raw : list R) :
  forall (prev : R) (bounds : list (float * float)),
    gentle recent_pct m prev raw ->
    length bounds = length raw ->
    map fst (safety_loop recent_pct m (Some prev)
                         (combine (map Some raw) bounds))
    = map Some raw.
Proof.
  induction raw as [|p raw IH]; intros prev bounds Hg Hlen; [reflexivity|].
  destruct bounds as [|[l u] bounds]; [discriminate|].
  destruct Hg as [[Hdown Hup] Hrest].
  change (combine (map Some (p :: raw)) ((l, u) :: bounds))
    with ((Some p, (l, u)) :: combine (map Some raw) bounds).
  rewrite safety_loop_step. cbn zeta.
  set (allowed := Py.max (Rabs recent_pct * m) floor) in *.
  assert (Hmin : Py.min p (prev * (1 + allowed)) = p)
    by (unfold Py.min; destruct (Rlt_dec _ p); lra).
  rewrite Hmin.
  assert (Hmax : Py.max p (prev * (1 - allowed * m)) = p)
    by (unfold Py.max; destruct (Rlt_dec p _); lra).
  rewrite Hmax.
  assert (Hadj : (if Rlt_dec recent_pct 0
                  then if Rlt_dec prev p then p else p else p) = p)
    by (destruct (Rlt_dec recent_pct 0); [destruct (Rlt_dec prev p)|];
        reflexivity).
  rewrite Hadj. cbn [map fst]. f_equal.
  apply IH; [exact Hrest | simpl in Hlen; lia].
Qed.

(** The safety adjustment leaves gentle forecasts alone: when every raw
    prediction of the fit lies within the caps around the one before it (the
    first one around the last value of the series), the predictions of the
    result are the raw predictions. *)
Theorem gentle_forecast_is_unchanged
    (fit : ExponentialSmoothing) (s : series) (steps seasonal_periods : nat)
    (use_seasonal : bool) (max_growth_multiplier prev : R) (raw : list R) :
  (3 <= length (dropna s))%nat ->
  iloc_last s NaN = Some prev ->
  (forall trend seasonal periods init,
      forecast (fit s trend seasonal periods init) steps = map Some raw) ->
  gentle (recent_pct_of s) max_growth_multiplier prev raw ->
  exists r : ForecastResult,
    ets_recursive_forecast fit s steps seasonal_periods use_seasonal
                           max_growth_multiplier = Ok r
    /\ predictions r = map Some raw.
Proof.
  intros Hlen Hlast Hfit Hgentle.
  unfold ets_recursive_forecast.
  destruct s as [|x s']; [simpl in Hlen; lia|].
  assert (Hge : (length (dropna (x :: s')) <? 3)%nat = false)
    by (apply Nat.ltb_ge; exact Hlen).
  rewrite Hge, Hfit, Hlast.
  eexists. split; [reflexivity|].
  cbn [predictions].
  apply safety_loop_gentle; [exact Hgentle|].
  rewrite length_combine, !length_map, !length_combine, !length_map.
  lia.
Qed.

Lemma recent_pct_steady_series : recent_pct_of steady_series = 0.
Proof.
  unfold recent_pct_of, steady_series. cbn.
  unfold mean, Py.sum. cbn. lra.
Qed.

Lemma gentle_forecast_is_unchanged_witness :
  exists r : ForecastResult,
    ets_recursive_forecast steady_fit steady_series 1 12 true 3 = Ok r
    /\ predictions r = map Some [101].
Proof.
  apply (gentle_forecast_is_unchanged steady_fit steady_series 1 12 true 3 100).
  - simpl. lia.
  - reflexivity.
  - intros. reflexivity.
  - rewrite recent_pct_steady_series. cbn [gentle].
    assert (Hall : Py.max (Rabs 0 * 3) floor = 0.01).
    { rewrite Rabs_R0. unfold Py.max, floor.
      destruct (Rlt_dec (0 * 3) 0.01); lra. }
    rewrite Hall. split; [lra | exact I].
Defined.

(** The caps compound.  Whatever the recent percent change, with the
    default multiplier 3, from a previous value and with raw predictions
    that are not negative, the adjusted prediction of step [i] (from 0) is
    not negative and at most the previous value times [(1 + allowed)] to
    the power [i + 1], where [allowed] is [max(abs(recent_pct) * 3, 0.01)]. *)
Theorem safety_loop_growth_compounds (recent_pct : R) (raw : list R) :
  forall (prev : R) (bounds : list (float * float)),
    0 <= prev ->
    Forall (fun p => 0 <= p) raw ->
    length bounds = length raw ->
    forall (i : nat) (a : R),
      nth_error (map fst (safety_loop recent_pct 3 (Some prev)
                                      (combine (map Some raw) bounds))) i
      = Some (Some a) ->
      0 <= a <= prev * (1 + Py.max (Rabs recent_pct * 3) floor) ^ S i.
Proof.
  induction raw as [|p raw IH]; intros prev bounds Hprev Hraw Hlen i a Hnth.
  - destruct i; discriminate.
  - destruct bounds as [|[l u] bounds]; [discriminate|].
    inversion Hraw as [|? ? Hp Hrest]; subst.
    change (combine (map Some (p :: raw)) ((l, u) :: bounds))
      with ((Some p, (l, u)) :: combine (map Some raw) bounds) in Hnth.
    rewrite safety_loop_step in Hnth.
    pose proof (safety_step_caps recent_pct prev p Hprev) as Hstep.
    cbn zeta in Hstep, Hnth. destruct Hstep as (Hup & _ & Hnonneg).
    specialize (Hnonneg Hp).
    pose proof (allowed_positive recent_pct) as Hall.
    set (allowed := Py.max (Rabs recent_pct * 3) floor) in *.
    set (p_adj := if Rlt_dec recent_pct 0
                  then if Rlt_dec prev p
                       then Py.min p (prev * (1 + allowed))
                       else Py.max (Py.min p (prev * (1 + allowed)))
                                   (prev * (1 - allowed * 3))
                  else Py.max (Py.min p (prev * (1 + allowed)))
                              (prev * (1 - allowed * 3))) in *.
    destruct i as [|j].
    + cbn [map fst nth_error] in Hnth. injection Hnth as <-.
      simpl. split; [exact Hnonneg | lra].
    + cbn [map fst nth_error] in Hnth.
      assert (Hlen' : length bounds = length raw) by (simpl in Hlen; lia).
      destruct (IH p_adj bounds Hnonneg Hrest Hlen' j a Hnth) as [Ha0 Ha].
      split; [exact Ha0|].
      assert (Hpow : 0 <= (1 + allowed) ^ S j) by (apply pow_le; lra).
      apply Rle_trans with (p_adj * (1 + allowed) ^ S j); [exact Ha|].
      change ((1 + allowed) ^ S (S j))
        with ((1 + allowed) * (1 + allowed) ^ S j).
      nra.
Qed.

Lemma safety_loop_growth_compounds_witness :
  exists a : R,
    nth_error
      (map fst (safety_loop (-0.1) 3 (Some 100)
                            (combine (map Some [500; 20])
                                     [(Some 400, Some 600); (NaN, NaN)]))) 0
    = Some (Some a)
    /\ 0 <= a <= 100 * (1 + Py.max (Rabs (-0.1) * 3) floor) ^ 1.
Proof.
  cbn [combine map]. rewrite safety_loop_step. cbn zeta. cbn [map fst nth_error].
  eexists. split; [reflexivity|].
  apply (safety_loop_growth_compounds
           (-0.1) [500; 20] 100 [(Some 400, Some 600); (NaN, NaN)]).
  - lra.
  - repeat constructor; lra.
  - reflexivity.
  - cbn [combine map]. rewrite safety_loop_step. reflexivity.
Defined.

(** The safety loop only narrows the confidence interval: on numbers it
    yields numbers, each adjusted lower bound is at least the raw one and
    each adjusted upper bound at most the raw one. *)
Theorem bounds_only_narrow (recent_pct m : R) (rows : list (R * (R * R))) :
  forall prev : R,
  exists out : list (R * (R * R)),
    safety_loop recent_pct m (Some prev) (finite_rows rows) = finite_rows out
    /\ Forall2 narrows rows out.
Proof.
  induction rows as [|[p [l u]] rows IH]; intro prev.
  - exists []. split; [reflexivity | constructor].
  - unfold finite_rows. cbn [map fst snd]. fold (finite_rows rows).
    rewrite safety_loop_step. cbn zeta.
    set (allowed := Py.max (Rabs recent_pct * m) floor).
    set (max_up := prev * (1 + allowed)).
    set (min_down := prev * (1 - allowed * m)).
    set (p_adj := if Rlt_dec recent_pct 0
                  then if Rlt_dec prev p then Py.min p max_up
                       else Py.max (Py.min p max_up) min_down
                  else Py.max (Py.min p max_up) min_down).
    destruct (IH p_adj) as [out [Hout Hnarrow]].
    exists ((p_adj, (Py.max min_down l, Py.min max_up u)) :: out).
    split.
    + rewrite Hout. unfold finite_rows. cbn [map fst snd].
      f_equal. f_equal. f_equal.
      * unfold fmax, flt, Py.max. destruct (Rlt_dec min_down l); reflexivity.
      * unfold fmin, flt, Py.min. destruct (Rlt_dec u max_up); reflexivity.
    + constructor; [|exact Hnarrow].
      unfold narrows. cbn [fst snd]. unfold Py.max, Py.min.
      destruct (Rlt_dec min_down l), (Rlt_dec u max_up); lra.
Qed.

Lemma np_std0_present (l : list R) : np_std0 (map Some l) = Some (std0 l).
Proof.
  unfold np_std0.
  assert (H : forallb (fun x : float => negb (isnan x)) (map Some l) = true).
  { induction l as [|x l IH]; [reflexivity | exact IH]. }
  rewrite H, dropna_present. reflexivity.
Qed.

Lemma residuals_of_perfect_fit (l : list R) :
  map (fun p : float * float => fsub (fst p) (snd p))
      (combine (map Some l) (map Some l))
  = map Some (repeat 0 (length l)).
Proof.
  induction l as [|x l IH]; [reflexivity|].
  cbn [map combine fst snd length repeat fsub lift2]. rewrite IH.
  f_equal. f_equal. lra.
Qed.

(** The residual standard deviation is NaN or a number that is not
    negative, and it is 0 for a fit that reproduces the history. *)
Theorem residual_std_nonnegative :
  (forall (fitted_values actual : list float) (v : R),
      _residual_std fitted_values actual = Some v -> 0 <= v)
  /\ (forall l : list R,
         l <> [] -> _residual_std (map Some l) (map Some l) = Some 0).
Proof.
  split.
  - intros fv actual v. unfold _residual_std, np_std0.
    destruct (forallb _ _); [|discriminate].
    intro H. injection H as <-. unfold std0. apply sqrt_pos.
  - intros l Hne. unfold _residual_std.
    rewrite residuals_of_perfect_fit, np_std0_present.
    f_equal. apply std0_repeat.
    destruct l; [congruence | simpl; lia].
Qed.

Lemma residual_std_nonnegative_witness :
  _residual_std [Some 1; Some 2] [Some 1; Some 2] = Some 0.
Proof.
  destruct residual_std_nonnegative as [_ Hperfect].
  apply (Hperfect [1; 2]). discriminate.
Defined.

Lemma iloc_last_n_app {A : Type} (pre l : list A) :
  l <> [] -> iloc_last_n (length l) (pre ++ l) = l.
Proof.
  intro Hne. unfold iloc_last_n.
  destruct (length l) as [|k] eqn:E; [destruct l; [congruence|discriminate]|].
  rewrite length_app, E.
  replace (length pre + S k - S k)%nat with (length pre + 0)%nat by lia.
  rewrite skipn_app, Nat.add_0_r, skipn_all.
  replace (length pre - length pre)%nat with 0%nat by lia.
  reflexivity.
Qed.

(** Growth at a constant rate.  When the last three values of a series are
    [a], [a * r] and [a * r * r] (not zero), the recent percent change is
    [r - 1], the growth rate. *)
Theorem recent_pct_of_constant_growth (pre : series) (a r : R) :
  a <> 0 ->
  r <> 0 ->
  recent_pct_of (pre ++ [Some a; Some (a * r); Some (a * r * r)]) = r - 1.
Proof.
  intros Ha Hr. unfold recent_pct_of.
  assert (Hlen : Nat.leb 3 (length (pre ++ [Some a; Some (a * r);
                                            Some (a * r * r)]))
                 = true).
  { apply Nat.leb_le. rewrite length_app. simpl. lia. }
  rewrite Hlen.
  pose proof (iloc_last_n_app pre [Some a; Some (a * r); Some (a * r * r)]
                ltac:(discriminate)) as Hrecent.
  cbn [length] in Hrecent. rewrite Hrecent.
  cbn [pct_change pct_change_from fdiv fsub lift2 dropna NaN].
  unfold mean, Py.sum. cbn [fold_left length INR].
  field. split; assumption.
Qed.

Lemma recent_pct_of_constant_growth_witness :
  recent_pct_of ([Some 1; Some 2] ++ [Some 5000; Some (5000 * 1.02);
                                      Some (5000 * 1.02 * 1.02)])
  = 1.02 - 1.
Proof.
  apply recent_pct_of_constant_growth; lra.
Defined.

End ForecasterProperties.

(* ================================================================= *)
(** ** Further properties of the consistency validator *)

Section ValidatorInvariants.
Import Py ConsistencyValidator Derived Examples.

Lemma validator_fields_unchanged (p : Payload.t) :
  let out := validate_and_adjust p in
  Payload.predictions out = Payload.predictions p
  /\ Payload.lower out = Payload.lower p
  /\ Payload.upper out = Payload.upper p
  /\ Payload.volatility_percent out = Payload.volatility_percent p
  /\ Payload.drawdown out = Payload.drawdown p
  /\ Payload.drawdown_percent out = Payload.drawdown_percent p
  /\ Payload.momentum_pct_per_month out = Payload.momentum_pct_per_month p
  /\ Payload.composite_score out = Payload.composite_score p
  /\ Payload.risk_label out = Payload.risk_label p
  /\ Payload.last_actual out = Payload.last_actual p
  /\ Payload.recent_short_pct out = Payload.recent_short_pct p
  /\ Payload.recent_long_pct out = Payload.recent_long_pct p
  /\ Payload.stability_index out = Payload.stability_index p
  /\ Payload.insight out = Payload.insight p.
Proof.
  unfold validate_and_adjust. fold (Spec.direction p).
  fold (fires_a p). fold (fires_b p).
  destruct (direction_pct _ _), (fires_a p), (fires_b p);
    cbn; repeat split; reflexivity.
Qed.

(** The validator writes two keys only: every other field of the output is
    the field of the payload. *)
Theorem validator_keeps_other_fields (p : Payload.t) :
  let out := validate_and_adjust p in
  Payload.predictions out = Payload.predictions p
  /\ Payload.lower out = Payload.lower p
  /\ Payload.upper out = Payload.upper p
  /\ Payload.volatility_percent out = Payload.volatility_percent p
  /\ Payload.drawdown out = Payload.drawdown p
  /\ Payload.drawdown_percent out = Payload.drawdown_percent p
  /\ Payload.momentum_pct_per_month out = Payload.momentum_pct_per_month p
  /\ Payload.composite_score out = Payload.composite_score p
  /\ Payload.risk_label out = Payload.risk_label p
  /\ Payload.last_actual out = Payload.last_actual p
  /\ Payload.recent_short_pct out = Payload.recent_short_pct p
  /\ Payload.recent_long_pct out = Payload.recent_long_pct p
  /\ Payload.stability_index out = Payload.stability_index p
  /\ Payload.insight out = Payload.insight p.
Proof. exact (validator_fields_unchanged p). Qed.

(** Without a prediction or without a last actual value there is no
    direction to check: the validator returns the payload as it is. *)
Theorem validator_without_direction (p : Payload.t) :
  Payload.predictions p = None \/ Payload.predictions p = Some []
  \/ Payload.last_actual p = None ->
  validate_and_adjust p = p.
Proof.
  intro H.
  assert (Hpct : direction_pct
                   (match Payload.predictions p with
                    | Some l => l
                    | None => []
                    end) (Payload.last_actual p) = None).
  { destruct H as [-> | [-> | ->]]; try reflexivity.
    destruct (match Payload.predictions p with
              | Some l => l
              | None => []
              end); reflexivity. }
  unfold validate_and_adjust. rewrite Hpct. cbn [option_map Payload.str_is].
  rewrite andb_false_r. reflexivity.
Qed.

Lemma validator_without_direction_witness :
  validate_and_adjust stale_payload = stale_payload.
Proof.
  apply validator_without_direction. left. reflexivity.
Defined.

Lemma validator_direction_pct (p : Payload.t) :
  Payload.forecast_direction_pct (validate_and_adjust p)
  = match direction_pct
            (match Payload.predictions p with
             | Some l => l
             | None => []
             end) (Payload.last_actual p) with
    | Some pct => Some pct
    | None => Payload.forecast_direction_pct p
    end.
Proof.
  unfold validate_and_adjust. fold (Spec.direction p).
  fold (fires_a p). fold (fires_b p).
  destruct (direction_pct _ _), (fires_a p), (fires_b p); reflexivity.
Qed.

Lemma payload_ext (p q : Payload.t) :
  Payload.predictions p = Payload.predictions q ->
  Payload.lower p = Payload.lower q ->
  Payload.upper p = Payload.upper q ->
  Payload.volatility_percent p = Payload.volatility_percent q ->
  Payload.drawdown p = Payload.drawdown q ->
  Payload.drawdown_percent p = Payload.drawdown_percent q ->
  Payload.momentum_pct_per_month p = Payload.momentum_pct_per_month q ->
  Payload.composite_score p = Payload.composite_score q ->
  Payload.risk_label p = Payload.risk_label q ->
  Payload.last_actual p = Payload.last_actual q ->
  Payload.recent_short_pct p = Payload.recent_short_pct q ->
  Payload.recent_long_pct p = Payload.recent_long_pct q ->
  Payload.stability_index p = Payload.stability_index q ->
  Payload.insight p = Payload.insight q ->
  Payload.forecast_direction_pct p = Payload.forecast_direction_pct q ->
  Payload.consistency_explanation p = Payload.consistency_explanation q ->
  p = q.
Proof.
  destruct p, q. cbn. intros. subst. reflexivity.
Qed.

(** The percent and the direction that the validator derives depend on the
    predictions and the last actual value only, which it does not change:
    validating twice is validating once. *)
Theorem validator_is_idempotent (p : Payload.t) :
  validate_and_adjust (validate_and_adjust p) = validate_and_adjust p.
Proof.
  set (out := validate_and_adjust p).
  destruct (validator_fields_unchanged p)
    as (H1 & H2 & H3 & H4 & H5 & H6 & H7 & H8 & H9 & H10 & H11 & H12 & H13
        & H14).
  fold out in H1, H2, H3, H4, H5, H6, H7, H8, H9, H10, H11, H12, H13, H14.
  destruct (validator_fields_unchanged out)
    as (K1 & K2 & K3 & K4 & K5 & K6 & K7 & K8 & K9 & K10 & K11 & K12 & K13
        & K14).
  assert (Hdir : Spec.direction out = Spec.direction p)
    by (unfold Spec.direction; rewrite H1, H10; reflexivity).
  assert (Ha : fires_a out = fires_a p)
    by (unfold fires_a; rewrite Hdir, H9; reflexivity).
  assert (Hb : fires_b out = fires_b p)
    by (unfold fires_b; rewrite Hdir, H4; reflexivity).
  apply payload_ext; try assumption.
  - rewrite (validator_direction_pct out), H1, H10.
    unfold out at 1. rewrite (validator_direction_pct p).
    unfold out. rewrite (validator_direction_pct p).
    destruct (direction_pct _ _); reflexivity.
  - rewrite (validate_and_adjust_explanation out), Ha, Hb.
    unfold out. rewrite (validate_and_adjust_explanation p).
    destruct (fires_a p), (fires_b p); reflexivity.
Qed.

Lemma quotient_sign (d last : R) :
  last <> 0 ->
  (0 < last -> (0 < d / last <-> 0 < d) /\ (d / last < 0 <-> d < 0))
  /\ (last < 0 -> (0 < d / last <-> d < 0) /\ (d / last < 0 <-> 0 < d)).
Proof.
  intro Hnz. split; intro Hl.
  - assert (Hi : 0 < / last) by (apply Rinv_0_lt_compat; exact Hl).
    assert (Hone : last * / last = 1) by (apply Rinv_r; exact Hnz).
    unfold Rdiv. repeat split; intro H; nra.
  - assert (Hi : / last < 0) by (apply Rinv_lt_0_compat; exact Hl).
    assert (Hone : last * / last = 1) by (apply Rinv_r; exact Hnz).
    unfold Rdiv. repeat split; intro H; nra.
Qed.

(** What the direction means.  For a last actual value above zero the
    direction is up exactly when the average prediction is above it, down
    exactly when it is below and flat when they are equal.  For a last
    actual value below zero the sign of the percent change is reversed: the
    direction is up exactly when the average prediction is below it. *)
Theorem direction_follows_average (p : Payload.t) (preds : list R) (last : R) :
  Payload.predictions p = Some preds ->
  preds <> [] ->
  Payload.last_actual p = Some last ->
  let avg := Py.sum preds / INR (length preds) in
  (0 < last ->
   (Spec.direction p = Some "up"%string <-> last < avg)
   /\ (Spec.direction p = Some "down"%string <-> avg < last)
   /\ (Spec.direction p = Some "flat"%string <-> avg = last))
  /\ (last < 0 ->
      (Spec.direction p = Some "up"%string <-> avg < last)
      /\ (Spec.direction p = Some "down"%string <-> last < avg)
      /\ (Spec.direction p = Some "flat"%string <-> avg = last)).
Proof.
  intros Hpreds Hne Hlast avg.
  assert (Hdir : forall Hnz : last <> 0,
             Spec.direction p = Some (direction_of ((avg - last) / last))).
  { intro Hnz. unfold Spec.direction. rewrite Hpreds, Hlast.
    destruct preds as [|x l]; [congruence|].
    unfold direction_pct. destruct (Req_dec_T last 0); [contradiction|].
    reflexivity. }
  split; intro Hl.
  - rewrite Hdir by lra.
    destruct (quotient_sign (avg - last) last ltac:(lra)) as [Hq _].
    destruct (Hq Hl) as [Hpos Hneg].
    unfold direction_of.
    destruct (Rlt_dec 0 ((avg - last) / last)) as [H1|H1];
      [|destruct (Rlt_dec ((avg - last) / last) 0) as [H2|H2]];
      repeat split; intro H;
      first [reflexivity | discriminate | lra
            | exfalso; apply H1, Hpos; lra
            | exfalso; apply H2, Hneg; lra
            | apply Hpos in H1; lra
            | apply Hneg in H2; lra
            | idtac].
    all: try (assert (~ 0 < avg - last) by (intro; apply H1, Hpos; assumption);
              assert (~ avg - last < 0) by (intro; apply H2, Hneg; assumption);
              lra).
  - rewrite Hdir by lra.
    destruct (quotient_sign (avg - last) last ltac:(lra)) as [_ Hq].
    destruct (Hq Hl) as [Hpos Hneg].
    unfold direction_of.
    destruct (Rlt_dec 0 ((avg - last) / last)) as [H1|H1];
      [|destruct (Rlt_dec ((avg - last) / last) 0) as [H2|H2]];
      repeat split; intro H;
      first [reflexivity | discriminate | lra
            | exfalso; apply H1, Hpos; lra
            | exfalso; apply H2, Hneg; lra
            | apply Hpos in H1; lra
            | apply Hneg in H2; lra
            | idtac].
    all: try (assert (~ avg - last < 0) by (intro; apply H1, Hpos; assumption);
              assert (~ 0 < avg - last) by (intro; apply H2, Hneg; assumption);
              lra).
Qed.

Lemma direction_follows_average_witness :
  Spec.direction growth_high_risk = Some "up"%string
  <-> 100 < Py.sum [110] / INR (length [110]).
Proof.
  destruct (direction_follows_average growth_high_risk [110] 100 eq_refl
              ltac:(discriminate) eq_refl) as [Hpos _].
  apply Hpos. lra.
Defined.

End ValidatorInvariants.

(* ================================================================= *)
(** ** Further properties of the narrative *)

Section NarrativeSections.
Import Py InsightsEngine Derived Examples Narrative.

Lemma summary_of_unfold (p : Payload.t) :
  summary_of p
  = trend_section (Payload.recent_short_pct p) (Payload.recent_long_pct p)
                  (avg_forecast_of (predictions_of p)) (Payload.last_actual p).
Proof. reflexivity. Qed.

(** The trend summary.  Without a short-term trend, a long-term trend or a
    prediction the summary says that the data is insufficient.  Otherwise a
    short-term trend below -15% gives the downward sentence, one above +10%
    the upward sentence and any other the modest-movement sentence; the
    percent reported is the change from the last actual value to the average
    prediction, and 0 when the last actual value is missing or zero. *)
Theorem trend_summary_table (p : Payload.t) :
  (~ has_trend_data p -> summary_of p = TrendInsufficientData)
  /\ (has_trend_data p ->
      forall recent_short : R,
        Payload.recent_short_pct p = Some recent_short ->
        let pct :=
          match Payload.last_actual p with
          | Some last => if Req_dec_T last 0 then 0 else change_pct p last
          | None => 0
          end in
        (recent_short < -0.15 -> summary_of p = DownwardTrend pct)
        /\ (0.10 < recent_short -> summary_of p = UpwardTrajectory pct)
        /\ (-0.15 <= recent_short <= 0.10 ->
            summary_of p = ModestMovement pct)).
Proof.
  rewrite summary_of_unfold. unfold has_trend_data, change_pct.
  destruct (Payload.recent_short_pct p) as [rs|];
    [|split; [reflexivity | intros (H & _); congruence]].
  destruct (Payload.recent_long_pct p) as [rl|];
    [|split; [reflexivity | intros (_ & H & _); congruence]].
  destruct (predictions_of p) as [|x l] eqn:Epreds;
    [split; [reflexivity | intros (_ & _ & H); congruence]|].
  split; [intro H; exfalso; apply H; repeat split; discriminate|].
  intros _ recent_short Hrs. injection Hrs as ->.
  unfold trend_section, avg_forecast_of, summary_decline_threshold,
    summary_growth_threshold, Payload.truthy.
  assert (Hpct : match Payload.last_actual p with
                 | Some last_actual =>
                     if if Req_dec_T last_actual 0 then false else true
                     then (Py.sum (x :: l) / INR (length (x :: l))
                           - last_actual) / last_actual * 100
                     else 0
                 | None => 0
                 end
                 = match Payload.last_actual p with
                   | Some last =>
                       if Req_dec_T last 0 then 0
                       else (Py.sum (x :: l) / INR (length (x :: l)) - last)
                            / last * 100
                   | None => 0
                   end).
  { destruct (Payload.last_actual p) as [last|]; [|reflexivity].
    destruct (Req_dec_T last 0); reflexivity. }
  rewrite Hpct. cbn zeta.
  destruct (Rlt_dec recent_short (-0.15)); [|destruct (Rlt_dec 0.10 recent_short)];
    repeat split; intro H; first [reflexivity | lra].
Qed.

Lemma trend_summary_table_witness :
  summary_of orderly_decline
  = ModestMovement
      (match Payload.last_actual orderly_decline with
       | Some last =>
           if Req_dec_T last 0 then 0 else change_pct orderly_decline last
       | None => 0
       end).
Proof.
  destruct (trend_summary_table orderly_decline) as [_ Htable].
  destruct (Htable ltac:(repeat split; discriminate) (-0.12) eq_refl)
    as (_ & _ & Hmodest).
  apply Hmodest. lra.
Defined.

Lemma reported_change_unfold (p : Payload.t) :
  reported_change p
  = forecast_pct_change_of (avg_forecast_of (predictions_of p))
                           (Payload.last_actual p).
Proof. reflexivity. Qed.

(** The two percents of the insight.  With trend data and a last actual
    value that is not zero, the trend summary and the recommendation report
    the same percent change as long as the average prediction is not zero;
    for an average prediction of exactly zero the summary reports -100 and
    the recommendation 0. *)
Theorem summary_and_recommendation_percent (p : Payload.t) (last : R) :
  has_trend_data p ->
  Payload.last_actual p = Some last ->
  last <> 0 ->
  let avg := Py.sum (predictions_of p) / INR (length (predictions_of p)) in
  (avg <> 0 ->
   summary_change p = Some (change_pct p last)
   /\ reported_change p = change_pct p last)
  /\ (avg = 0 ->
      summary_change p = Some (-100) /\ reported_change p = 0).
Proof.
  intros (Hrs & Hrl & Hpreds) Hlast Hnz avg.
  unfold summary_change. rewrite summary_of_unfold, reported_change_unfold.
  unfold change_pct. fold avg.
  destruct (Payload.recent_short_pct p) as [rs|]; [|congruence].
  destruct (Payload.recent_long_pct p) as [rl|]; [|congruence].
  rewrite Hlast.
  assert (Havg : avg_forecast_of (predictions_of p) = Some avg).
  { unfold avg. destruct (predictions_of p); [congruence | reflexivity]. }
  rewrite Havg.
  assert (Hsummary :
            match trend_section (Some rs) (Some rl) (Some avg) (Some last) with
            | DownwardTrend x | UpwardTrajectory x | ModestMovement x => Some x
            | TrendInsufficientData => None
            end = Some ((avg - last) / last * 100)).
  { unfold trend_section, Payload.truthy.
    destruct (Req_dec_T last 0); [contradiction|].
    destruct (Rlt_dec rs summary_decline_threshold);
      [|destruct (Rlt_dec summary_growth_threshold rs)]; reflexivity. }
  rewrite Hsummary.
  unfold forecast_pct_change_of, Payload.truthy.
  destruct (Req_dec_T last 0); [contradiction|].
  split; intro H.
  - destruct (Req_dec_T avg 0); [contradiction|]. split; reflexivity.
  - destruct (Req_dec_T avg 0); [|contradiction]. split; [|reflexivity].
    f_equal. rewrite H. field. exact Hnz.
Qed.

Lemma summary_and_recommendation_percent_witness :
  summary_change orderly_decline = Some (change_pct orderly_decline 100)
  /\ reported_change orderly_decline = change_pct orderly_decline 100.
Proof.
  destruct (summary_and_recommendation_percent orderly_decline 100) as [Hsame _].
  - repeat split; discriminate.
  - reflexivity.
  - lra.
  - apply Hsame. unfold predictions_of, orderly_decline, Py.sum. cbn. lra.
Defined.

(** Labels that the table does not name.  A payload whose risk label is
    missing, or is none of High, Medium and Low, gets the recommendation of
    the last branch, the one for a stable Low risk; with a missing label the
    risk assessment says that the data is insufficient. *)
Theorem unknown_label_gets_stability_advice (p : Payload.t) :
  Payload.risk_label p <> Some "High"%string ->
  Payload.risk_label p <> Some "Medium"%string ->
  Payload.risk_label p <> Some "Low"%string ->
  recommendation_of p = StrongOperationalStability
  /\ (Payload.risk_label p = None ->
      risk (build_insight p) = RiskInsufficientData).
Proof.
  intros Hh Hm Hl. split.
  - rewrite recommendation_of_unfold. unfold recommendation_section.
    assert (Eh : Payload.str_is (Payload.risk_label p) "High" = false)
      by (apply (not_true_false _ _ (str_is_true _ _)); exact Hh).
    assert (Em : Payload.str_is (Payload.risk_label p) "Medium" = false)
      by (apply (not_true_false _ _ (str_is_true _ _)); exact Hm).
    assert (El : Payload.str_is (Payload.risk_label p) "Low" = false)
      by (apply (not_true_false _ _ (str_is_true _ _)); exact Hl).
    rewrite Eh, Em, El. reflexivity.
  - intro Hnone. unfold build_insight. cbn [risk]. rewrite Hnone. reflexivity.
Qed.

Lemma unknown_label_gets_stability_advice_witness :
  recommendation_of stale_payload = StrongOperationalStability
  /\ (Payload.risk_label stale_payload = None ->
      risk (build_insight stale_payload) = RiskInsufficientData).
Proof.
  apply unknown_label_gets_stability_advice; discriminate.
Defined.

End NarrativeSections.

(* ================================================================= *)
(** ** Further properties of the series preparation *)

Section PreparationInvariants.
Import Py Preprocessing Derived Examples Terms MoreExamples.

Lemma ts_eqb_refl (a : Timestamp) : ts_eqb a a = true.
Proof.
  unfold ts_eqb. rewrite Z.eqb_refl, !Nat.eqb_refl. reflexivity.
Qed.

(** The chronological order is total: of two timestamps one is earlier or
    they are equal. *)
Lemma later_of_not_earlier (a b : Timestamp) :
  ts_ltb a b = false -> ts_eqb a b = false -> earlier b a.
Proof.
  intros Hlt Heq. unfold earlier.
  destruct (ts_ltb b a) eqn:E; [reflexivity|]. exfalso.
  assert (Hab : ~ earlier a b) by (unfold earlier; congruence).
  assert (Hba : ~ earlier b a) by (unfold earlier; congruence).
  unfold earlier in Hab, Hba. rewrite ts_ltb_iff in Hab, Hba.
  assert (a = b).
  { destruct a as [ya ma da na], b as [yb mb db nb].
    cbn [year month day nanos] in *.
    assert (ya = yb) by lia. subst.
    assert (ma = mb) by lia. subst.
    assert (da = db) by lia. subst.
    assert (na = nb) by lia. subst. reflexivity. }
  subst. rewrite ts_eqb_refl in Heq. discriminate.
Qed.

Lemma group_add_keys (k : Timestamp) (v : float) (groups : MonthlySeries) :
  forall c, In c (map fst (group_add k v groups)) ->
            c = k \/ In c (map fst groups).
Proof.
  induction groups as [|[k' acc] rest IH]; intros c Hc.
  - cbn in Hc. destruct Hc as [<-|[]]. left. reflexivity.
  - cbn [group_add] in Hc.
    destruct (ts_ltb k k'); [|destruct (ts_eqb k k')].
    + cbn [map fst] in Hc. destruct Hc as [<-|Hc]; [left; reflexivity|].
      right. exact Hc.
    + right. exact Hc.
    + cbn [map fst] in Hc. destruct Hc as [<-|Hc].
      * right. left. reflexivity.
      * destruct (IH c Hc) as [->|Hin]; [left; reflexivity|].
        right. right. exact Hin.
Qed.

(** Adding a row keeps the groups in chronological order. *)
Lemma group_add_chronological (k : Timestamp) (v : float)
    (groups : MonthlySeries) :
  chronological (map fst groups) ->
  chronological (map fst (group_add k v groups)).
Proof.
  induction groups as [|[k' acc] rest IH]; intro H.
  - cbn. split; [constructor | exact I].
  - destruct H as [Hall Hrest]. cbn [group_add].
    destruct (ts_ltb k k') eqn:Elt; [|destruct (ts_eqb k k') eqn:Eeq].
    + cbn [map fst chronological]. split; [|split; assumption].
      constructor; [exact Elt|].
      eapply Forall_impl; [|exact Hall].
      intros c Hc. exact (earlier_trans k k' c Elt Hc).
    + cbn [map fst chronological]. split; assumption.
    + cbn [map fst chronological]. split; [|apply IH; exact Hrest].
      apply Forall_forall. intros c Hc.
      destruct (group_add_keys k v rest c Hc) as [->|Hin].
      * apply later_of_not_earlier; assumption.
      * rewrite Forall_forall in Hall. apply Hall. exact Hin.
Qed.

Lemma fold_group_add_chronological (rows : list (Timestamp * float)) :
  forall groups : MonthlySeries,
    chronological (map fst groups) ->
    chronological
      (map fst (fold_left (fun g row => group_add (fst row) (snd row) g)
                          rows groups)).
Proof.
  induction rows as [|[k v] rows IH]; intros groups H; [exact H|].
  cbn [fold_left fst snd]. apply IH, group_add_chronological. exact H.
Qed.

Lemma fold_group_add_keys (rows : list (Timestamp * float)) :
  forall (groups : MonthlySeries) (c : Timestamp),
    In c (map fst (fold_left (fun g row => group_add (fst row) (snd row) g)
                             rows groups)) ->
    In c (map fst rows) \/ In c (map fst groups).
Proof.
  induction rows as [|[k v] rows IH]; intros groups c Hc; [right; exact Hc|].
  cbn [fold_left fst snd] in Hc.
  destruct (IH _ c Hc) as [Hin|Hin].
  - left. right. exact Hin.
  - destruct (group_add_keys k v groups c Hin) as [->|Hg].
    + left. left. reflexivity.
    + right. exact Hg.
Qed.

Lemma length_group_add (k : Timestamp) (v : float) (groups : MonthlySeries) :
  (length (group_add k v groups) <= S (length groups))%nat.
Proof.
  induction groups as [|[k' acc] rest IH]; [simpl; lia|].
  cbn [group_add]. destruct (ts_ltb k k'); [|destruct (ts_eqb k k')];
    simpl in *; lia.
Qed.

Lemma length_fold_group_add (rows : list (Timestamp * float)) :
  forall groups : MonthlySeries,
    (length (fold_left (fun g row => group_add (fst row) (snd row) g)
                       rows groups)
     <= length rows + length groups)%nat.
Proof.
  induction rows as [|[k v] rows IH]; intro groups; [simpl; lia|].
  cbn [fold_left fst snd length].
  pose proof (IH (group_add k v groups)) as H1.
  pose proof (length_group_add k v groups) as H2. lia.
Qed.

Lemma month_end_idempotent (t : Timestamp) :
  month_end (month_end t) = month_end t.
Proof. reflexivity. Qed.

Lemma prepare_series_result (df : DataFrame) (date_col value_col : string)
    (s : MonthlySeries) :
  prepare_series df date_col value_col = Ok s ->
  s = groupby_sum (rows_of df date_col value_col)
  /\ chronological (map fst s).
Proof.
  unfold prepare_series.
  destruct (negb _ || negb _); [discriminate|].
  intro H. injection H as <-. fold (rows_of df date_col value_col).
  assert (Hchr : chronological
                   (map fst (groupby_sum (rows_of df date_col value_col)))).
  { unfold groupby_sum. apply fold_group_add_chronological. exact I. }
  rewrite (sort_index_chronological _ Hchr). split; [reflexivity | exact Hchr].
Qed.

(** The invariant of a monthly series.  Whatever the rows of the frame,
    their order and their repetitions, the index of the prepared series is
    strictly ascending (so no month occurs twice), every index entry is the
    month end of its month, and there are no more entries than rows. *)
Theorem prepare_series_index_invariant
    (df : DataFrame) (date_col value_col : string) (s : MonthlySeries) :
  prepare_series df date_col value_col = Ok s ->
  chronological (map fst s)
  /\ Forall (fun k => month_end k = k) (map fst s)
  /\ (length s <= length (datetimes df date_col))%nat.
Proof.
  intro H. destruct (prepare_series_result df date_col value_col s H)
    as [Hs Hchr].
  split; [exact Hchr|]. subst s. split.
  - apply Forall_forall. intros c Hc.
    unfold groupby_sum in Hc.
    destruct (fold_group_add_keys _ [] c Hc) as [Hin|[]].
    unfold rows_of in Hin.
    assert (Hm : In c (map month_end (datetimes df date_col))).
    { revert Hin. generalize (map month_end (datetimes df date_col)).
      generalize (floats df value_col).
      intros vs ks. revert vs.
      induction ks as [|k ks IH]; intros vs Hin; [contradiction|].
      destruct vs as [|v vs]; [contradiction|].
      cbn [combine map fst] in Hin. destruct Hin as [<-|Hin].
      - left. reflexivity.
      - right. exact (IH vs Hin). }
    apply in_map_iff in Hm. destruct Hm as [t [<- _]].
    apply month_end_idempotent.
  - unfold groupby_sum.
    pose proof (length_fold_group_add (rows_of df date_col value_col) []) as Hl.
    unfold rows_of in *. rewrite length_combine, length_map in Hl.
    simpl in Hl. lia.
Qed.

Lemma prepare_three_sales :
  prepare_series three_sales "date" "revenue" = Ok three_sales_monthly.
Proof. reflexivity. Qed.

Lemma prepare_series_index_invariant_witness :
  chronological (map fst three_sales_monthly)
  /\ Forall (fun k => month_end k = k) (map fst three_sales_monthly)
  /\ (length three_sales_monthly <= length (datetimes three_sales "date"))%nat.
Proof.
  exact (prepare_series_index_invariant three_sales "date" "revenue"
           three_sales_monthly prepare_three_sales).
Defined.

Lemma ts_ltb_false_iff (a b : Timestamp) :
  ts_ltb a b = false
  -> ~ ((year a < year b)%Z
        \/ (year a = year b
            /\ ((month a < month b)%nat
                \/ (month a = month b
                    /\ ((day a < day b)%nat
                        \/ (day a = day b /\ (nanos a < nanos b)%nat)))))).
Proof.
  intros H Hlt. apply ts_ltb_iff in Hlt. congruence.
Qed.

Lemma ts_eqb_false_iff (a b : Timestamp) :
  ts_eqb a b = false ->
  year a <> year b \/ month a <> month b \/ day a <> day b
  \/ nanos a <> nanos b.
Proof.
  unfold ts_eqb. intro H.
  destruct (Z.eqb_spec (year a) (year b)); [|left; assumption].
  destruct (Nat.eqb_spec (month a) (month b)); [|right; left; assumption].
  destruct (Nat.eqb_spec (day a) (day b)); [|right; right; left; assumption].
  destruct (Nat.eqb_spec (nanos a) (nanos b)); [discriminate|].
  right. right. right. assumption.
Qed.

Ltac order_facts :=
  repeat match goal with
         | H : ts_eqb ?a ?b = true |- _ => apply ts_eqb_eq in H; subst
         | H : ts_ltb ?a ?b = true |- _ => apply ts_ltb_iff in H
         | H : ts_ltb ?a ?b = false |- _ => apply ts_ltb_false_iff in H
         | H : ts_eqb ?a ?b = false |- _ => apply ts_eqb_false_iff in H
         end.

Lemma group_add_comm (k1 k2 : Timestamp) (v1 v2 : float)
    (groups : MonthlySeries) :
  group_add k1 v1 (group_add k2 v2 groups)
  = group_add k2 v2 (group_add k1 v1 groups).
Proof.
  induction groups as [|[k' acc] rest IH].
  - repeat (cbn [group_add fst snd];
            match goal with
            | |- context [ts_ltb ?a ?b] => destruct (ts_ltb a b) eqn:?
            | |- context [ts_eqb ?a ?b] => destruct (ts_eqb a b) eqn:?
            end);
      order_facts;
      first [reflexivity | f_equal; f_equal; lra | exfalso; lia].
  - repeat (cbn [group_add fst snd];
            match goal with
            | |- context [ts_ltb ?a ?b] => destruct (ts_ltb a b) eqn:?
            | |- context [ts_eqb ?a ?b] => destruct (ts_eqb a b) eqn:?
            end);
      try rewrite IH;
      order_facts;
      first [reflexivity | f_equal; f_equal; lra | exfalso; lia].
Qed.

Lemma fold_group_add_permutation (rows rows' : list (Timestamp * float)) :
  Permutation rows rows' ->
  forall groups : MonthlySeries,
    fold_left (fun g row => group_add (fst row) (snd row) g) rows groups
    = fold_left (fun g row => group_add (fst row) (snd row) g) rows' groups.
Proof.
  induction 1 as [|r l l' _ IH|r1 r2 l|l l' l'' _ IH1 _ IH2]; intro groups.
  - reflexivity.
  - cbn [fold_left]. apply IH.
  - cbn [fold_left]. rewrite group_add_comm. reflexivity.
  - rewrite IH1. apply IH2.
Qed.

(** The order of the rows.  Take two frames with the same columns whose
    rows are the same up to their order.  The prepared series have the same
    index: the months of the result do not depend on the order of the rows.
    When no two rows fall in the same month, each value of the result is the
    value of one row and the two series are equal.  (With several rows in a
    month, the sum of the month is formed in the order of the rows.) *)
Theorem prepare_series_row_order
    (df1 df2 : DataFrame) (date_col value_col : string) :
  columns df1 = columns df2 ->
  Permutation (rows_of df1 date_col value_col)
              (rows_of df2 date_col value_col) ->
  (forall s1 s2 : MonthlySeries,
      prepare_series df1 date_col value_col = Ok s1 ->
      prepare_series df2 date_col value_col = Ok s2 ->
      map fst s1 = map fst s2)
  /\ (NoDup (map fst (rows_of df1 date_col value_col)) ->
      prepare_series df1 date_col value_col
      = prepare_series df2 date_col value_col).
Proof.
  intros Hcols Hperm.
  assert (Heq : prepare_series df1 date_col value_col
                = prepare_series df2 date_col value_col).
  { unfold prepare_series. rewrite Hcols.
    destruct (negb _ || negb _); [reflexivity|].
    fold (rows_of df1 date_col value_col).
    fold (rows_of df2 date_col value_col).
    unfold groupby_sum.
    rewrite (fold_group_add_permutation _ _ Hperm). reflexivity. }
  split.
  - intros s1 s2 H1 H2. rewrite Heq, H2 in H1. injection H1 as <-.
    reflexivity.
  - intros _. exact Heq.
Qed.

Lemma prepare_series_row_order_witness :
  (forall s1 s2 : MonthlySeries,
      prepare_series three_sales "date" "revenue" = Ok s1 ->
      prepare_series three_sales_sorted "date" "revenue" = Ok s2 ->
      map fst s1 = map fst s2)
  /\ prepare_series two_sales "date" "revenue"
     = prepare_series two_sales_sorted "date" "revenue".
Proof.
  split.
  - apply (prepare_series_row_order three_sales three_sales_sorted);
      [reflexivity|].
    cbn. apply perm_swap.
  - apply (prepare_series_row_order two_sales two_sales_sorted);
      [reflexivity | |].
    + cbn. apply perm_swap.
    + cbn. repeat constructor; cbn; intuition discriminate.
Defined.

End PreparationInvariants.

(* ================================================================= *)
(** ** The signals of the pipeline *)

Section PipelineSignals.
Import Py Pandas RiskAnalysis InsightsEngine Derived Examples Prediction MoreExamples.

(** The stability index lies between 0 and 100 and mirrors the volatility:
    it is 100 minus the volatility while the volatility is between 0 and
    100, 0 for a volatility of 100 or more (the infinite one included) and
    100 for a volatility that is not positive. *)
Theorem stability_index_mirrors_volatility (vol : pyfloat) :
  0 <= stability_index vol <= 100
  /\ (vol = Inf -> stability_index vol = 0)
  /\ (forall v : R,
         vol = Finite v ->
         (0 <= v <= 100 -> stability_index vol = 100 - v)
         /\ (100 <= v -> stability_index vol = 0)
         /\ (v <= 0 -> stability_index vol = 100)).
Proof.
  split; [|split].
  - destruct vol as [v|]; cbn [stability_index]; [|lra].
    unfold Py.max, Py.min. split_comparisons; lra.
  - intros ->. reflexivity.
  - intros v ->. cbn [stability_index]. unfold Py.max, Py.min.
    repeat split; intro H; split_comparisons; lra.
Qed.

Lemma stability_index_mirrors_volatility_witness :
  stability_index (Finite 30) = 100 - 30.
Proof.
  destruct (stability_index_mirrors_volatility (Finite 30)) as (_ & _ & H).
  destruct (H 30 eq_refl) as (Hmid & _). apply Hmid. lra.
Defined.

Lemma recent_short_below (s : list R) (c : R) :
  (3 <= length s)%nat ->
  0 < iloc_from_end 3 s ->
  (recent_short s < c
   <-> iloc_from_end 1 s < (1 + c) * iloc_from_end 3 s).
Proof.
  intros Hlen Hpos. unfold recent_short.
  apply Nat.leb_le in Hlen. rewrite Hlen.
  destruct (Req_dec_T (iloc_from_end 3 s) 0) as [H0|_]; [lra|].
  set (b := iloc_from_end 3 s) in *. set (l := iloc_from_end 1 s).
  assert (E : (l - b) / b * b = l - b) by (field; lra).
  split; intro H.
  - assert (Hb : (l - b) / b * b < c * b)
      by (apply Rmult_lt_compat_r; assumption).
    rewrite E in Hb. lra.
  - apply Rmult_lt_reg_r with b; [exact Hpos|]. rewrite E. lra.
Qed.

(** From the history to the advice.  For a Low-risk payload whose
    short-term trend is the pipeline's (the change from the third-last value,
    which is positive, to the last one), the recommendation is the
    controlled-decline one exactly when the last value is below 90% of the
    third-last. *)
Theorem controlled_decline_threshold (p : Payload.t) (s : list R) :
  (3 <= length s)%nat ->
  0 < iloc_from_end 3 s ->
  Payload.recent_short_pct p = Some (recent_short s) ->
  Payload.risk_label p = Some "Low"%string ->
  (recommendation_of p = ControlledDecline (reported_change p)
   <-> iloc_from_end 1 s < 0.9 * iloc_from_end 3 s).
Proof.
  intros Hlen Hpos Hrs Hlow.
  rewrite recommendation_of_unfold, Hlow, Hrs, recommendation_low.
  pose proof (below_iff (Some (recent_short s)) rec_decline_threshold
                thresholds_nonpositive) as Hbelow.
  pose proof (recent_short_below s (-0.10) Hlen Hpos) as Hthr.
  replace ((1 + -0.10) * iloc_from_end 3 s)
    with (0.9 * iloc_from_end 3 s) in Hthr by lra.
  unfold rec_decline_threshold in Hbelow.
  destruct (below (Some (recent_short s)) rec_decline_threshold) eqn:Eb;
    unfold rec_decline_threshold in Eb; rewrite Eb in Hbelow.
  - split; [intros _|reflexivity].
    destruct Hbelow as [Hb _]. destruct (Hb eq_refl) as [v [Hv Hlt]].
    injection Hv as <-. apply Hthr. exact Hlt.
  - split; [discriminate|]. intro Hlast. exfalso.
    destruct Hbelow as [_ Hb].
    assert (false = true); [|discriminate].
    apply Hb. exists (recent_short s). split; [reflexivity|].
    apply Hthr. exact Hlast.
Qed.

Lemma controlled_decline_threshold_witness :
  recommendation_of falling_low_risk
  = ControlledDecline (reported_change falling_low_risk).
Proof.
  apply (controlled_decline_threshold falling_low_risk falling_sales).
  - simpl. lia.
  - unfold iloc_from_end, falling_sales. cbn. lra.
  - reflexivity.
  - reflexivity.
  - unfold iloc_from_end, falling_sales. cbn. lra.
Defined.

End PipelineSignals.
